(** * Task_Manager: a shallow embedding of the task manager scripts

    The repository holds four iterations of one command-line to-do list
    ([task_manager-v1.py], [task_manager-v2.py], [task-manager-v3.py],
    [task_manager-v5.py]).  This development embeds the validators, the
    task operations, the listing queries and the JSON store of the
    scripts, and settles the properties stated about them.

    Modelling conventions
    - Python [str] values are [string]s of ASCII characters; [lower],
      [capitalize] and [strip] act on the ASCII letters and on the ASCII
      white space recognised by [str.isspace].
    - A task is the dictionary the scripts build in [add_task]; it is a
      record with one field per key.
    - The answers typed at the [input()] prompts of an operation are the
      arguments of its embedding; the lines it prints are [message]s
      appended to [stdout].
    - [datetime.today()] is an explicit argument of every function that
      reads the clock. *)

From Stdlib Require Import ZArith List Bool String Ascii Lia Permutation Sorted.
Import ListNotations.
Open Scope string_scope.
Open Scope Z_scope.

(** ** Python string primitives *)

Module PyStr.

Definition is_upper (c : ascii) : bool :=
  let n := nat_of_ascii c in (65 <=? n)%nat && (n <=? 90)%nat.

Definition is_lower (c : ascii) : bool :=
  let n := nat_of_ascii c in (97 <=? n)%nat && (n <=? 122)%nat.

Definition to_lower (c : ascii) : ascii :=
  if is_upper c then ascii_of_nat (nat_of_ascii c + 32) else c.

Definition to_upper (c : ascii) : ascii :=
  if is_lower c then ascii_of_nat (nat_of_ascii c - 32) else c.

(** [str.isspace] on the ASCII range: TAB, LF, VT, FF, CR, the four
    separators 0x1C..0x1F and the space. *)
Definition is_space (c : ascii) : bool :=
  let n := nat_of_ascii c in
  ((9 <=? n)%nat && (n <=? 13)%nat) || ((28 <=? n)%nat && (n <=? 32)%nat).

(** [s.lower()] *)
Fixpoint lower (s : string) : string :=
  match s with
  | EmptyString => EmptyString
  | String c r => String (to_lower c) (lower r)
  end.

(** [s.capitalize()]: first character upper-cased, the rest lower-cased. *)
Definition capitalize (s : string) : string :=
  match s with
  | EmptyString => EmptyString
  | String c r => String (to_upper c) (lower r)
  end.

Fixpoint lstrip (s : string) : string :=
  match s with
  | EmptyString => EmptyString
  | String c r => if is_space c then lstrip r else s
  end.

Fixpoint rstrip (s : string) : string :=
  match s with
  | EmptyString => EmptyString
  | String c r =>
      match rstrip r with
      | EmptyString => if is_space c then EmptyString else String c EmptyString
      | r' => String c r'
      end
  end.

(** [s.strip()] *)
Definition strip (s : string) : string := rstrip (lstrip s).

(** Truth value of a string: only the empty string is false. *)
Definition truthy (s : string) : bool :=
  match s with EmptyString => false | _ => true end.

(** [a or b] on strings. *)
Definition por (a b : string) : string := if truthy a then a else b.

End PyStr.

(** ** Dates: [datetime.strptime] and [datetime.today] *)

Module PyDate.

(** A naive [datetime] object. *)
Record datetime : Type := mk_datetime {
  year : Z; month : Z; day : Z;
  hour : Z; minute : Z; second : Z; microsecond : Z
}.

Definition fields (d : datetime) : list Z :=
  [year d; month d; day d; hour d; minute d; second d; microsecond d].

Fixpoint lex_ltb (a b : list Z) : bool :=
  match a, b with
  | x :: a', y :: b' => (x <? y) || ((x =? y) && lex_ltb a' b')
  | [], _ :: _ => true
  | _, [] => false
  end.

(** [a < b] on [datetime] objects. *)
Definition dt_ltb (a b : datetime) : bool := lex_ltb (fields a) (fields b).

(** The calendar date of a [datetime], as [d.date()] gives it. *)
Definition date_of (d : datetime) : Z * Z * Z := (year d, month d, day d).

Definition date_ltb (a b : Z * Z * Z) : bool :=
  let '(y1, m1, d1) := a in
  let '(y2, m2, d2) := b in
  lex_ltb [y1; m1; d1] [y2; m2; d2].

Definition is_leap (y : Z) : bool :=
  ((y mod 4 =? 0) && negb (y mod 100 =? 0)) || (y mod 400 =? 0).

Definition days_in_month (y m : Z) : Z :=
  if m =? 2 then (if is_leap y then 29 else 28)
  else if (m =? 4) || (m =? 6) || (m =? 9) || (m =? 11) then 30
  else 31.

(** *** The regular expressions of [_strptime]

    A directive is a backtracking matcher: it returns every way of
    matching a prefix of the input, in the priority order of the
    alternatives of its regular expression. *)
Definition matcher (A : Type) : Type := string -> list (A * string).

Definition digit (c : ascii) : option Z :=
  let n := nat_of_ascii c in
  if (48 <=? n)%nat && (n <=? 57)%nat then Some (Z.of_nat (n - 48)) else None.

Definition in_range (lo hi : Z) (c : ascii) : option Z :=
  match digit c with
  | Some v => if (lo <=? v) && (v <=? hi) then Some v else None
  | None => None
  end.

(** One character accepted by [f]. *)
Definition one (f : ascii -> option Z) : matcher Z :=
  fun s => match s with
           | String c r => match f c with Some v => [(v, r)] | None => [] end
           | EmptyString => []
           end.

Definition lit (c : ascii) : matcher unit :=
  fun s => match s with
           | String c' r => if Ascii.eqb c c' then [(tt, r)] else []
           | EmptyString => []
           end.

Definition bind {A B} (p : matcher A) (k : A -> matcher B) : matcher B :=
  fun s => flat_map (fun '(a, r) => k a r) (p s).

Definition ret {A} (a : A) : matcher A := fun s => [(a, s)].

Definition alt {A} (p q : matcher A) : matcher A := fun s => (p s ++ q s)%list.

Definition two (f g : ascii -> option Z) : matcher Z :=
  bind (one f) (fun a => bind (one g) (fun b => ret (10 * a + b))).

(** [%Y]: [\d\d\d\d] *)
Definition dir_Y : matcher Z :=
  bind (one digit) (fun a => bind (one digit) (fun b =>
  bind (one digit) (fun c => bind (one digit) (fun d =>
  ret (1000 * a + 100 * b + 10 * c + d))))).

(** [%m]: [1[0-2]|0[1-9]|[1-9]] *)
Definition dir_m : matcher Z :=
  alt (two (in_range 1 1) (in_range 0 2))
 (alt (two (in_range 0 0) (in_range 1 9))
      (one (in_range 1 9))).

(** [%d]: [3[0-1]|[1-2]\d|0[1-9]|[1-9]| [1-9]] *)
Definition dir_d : matcher Z :=
  alt (two (in_range 3 3) (in_range 0 1))
 (alt (two (in_range 1 2) digit)
 (alt (two (in_range 0 0) (in_range 1 9))
 (alt (one (in_range 1 9))
      (bind (lit " ") (fun _ => one (in_range 1 9)))))).

(** The two formats of the scripts. *)
Inductive format : Type :=
| YMD   (* "%Y-%m-%d", versions 2 and 3 *)
| DMY.  (* "%d-%m-%Y", version 5 *)

Definition format_re (f : format) : matcher (Z * Z * Z) :=
  match f with
  | YMD => bind dir_Y (fun y => bind (lit "-") (fun _ =>
           bind dir_m (fun m => bind (lit "-") (fun _ =>
           bind dir_d (fun d => ret (y, m, d))))))
  | DMY => bind dir_d (fun d => bind (lit "-") (fun _ =>
           bind dir_m (fun m => bind (lit "-") (fun _ =>
           bind dir_Y (fun y => ret (y, m, d))))))
  end.

(** [datetime.strptime(s, f)]: [None] stands for [ValueError].  The
    first match of the regular expression is taken; text left over
    after it, a year outside 1..9999, or a day the month does not have,
    is a [ValueError]. *)
Definition strptime (f : format) (s : string) : option datetime :=
  match format_re f s with
  | ((y, m, d), rest) :: _ =>
      match rest with
      | EmptyString =>
          if (1 <=? y) && (y <=? 9999) && (d <=? days_in_month y m)
          then Some (mk_datetime y m d 0 0 0 0)
          else None
      | _ => None
      end
  | [] => None
  end.

End PyDate.

Import PyStr PyDate.

(** ** Data model *)

(** The dictionary built by [add_task]; versions 1 to 3 have no
    ["comments"] key, version 5 stores [None] for a blank comment. *)
Record task : Type := mk_task {
  title : string;
  category : string;
  priority : string;
  due_date : string;
  completed : bool;
  comments : option string
}.

Definition task_eq_dec (a b : task) : {a = b} + {a <> b}.
Proof.
  decide equality;
    try apply string_dec; try apply bool_dec.
  decide equality. apply string_dec.
Defined.

(** [a == b] on task dictionaries. *)
Definition task_eqb (a b : task) : bool :=
  if task_eq_dec a b then true else false.

Definition set_completed (t : task) (b : bool) : task :=
  mk_task (title t) (category t) (priority t) (due_date t) b (comments t).

(** The lines the scripts print. *)
Inductive message : Type :=
| MsgInvalidPriority            (* "Invalid priority! Must be 'Low', 'Medium', or 'High'. ..." *)
| MsgPastDueDate                (* "Invalid date! You cannot add a task with a past due date. ..." *)
| MsgInvalidDateFormat          (* "Invalid date format! Please use ..." *)
| MsgAdded (t : string)         (* "Task '{title}' added successfully!" *)
| MsgRemoved (t : string)       (* "Task '{title}' removed successfully!" *)
| MsgNotFound                   (* "Task not found!" *)
| MsgCompletedRemoved           (* "All completed tasks removed successfully!" *)
| MsgNoCompleted                (* "No completed tasks to remove!" *)
| MsgAllRemoved                 (* "All tasks removed successfully!" *)
| MsgRemovalCanceled            (* "Task removal canceled." *)
| MsgLeaveBlank                 (* "Leave blank to keep current value." *)
| MsgCurrentComments (c : string) (* "Current comments: {comments}" *)
| MsgNoComments                 (* "No additional comments currently." *)
| MsgUpdated (t : string)       (* "Task '{new_title}' updated successfully!" *)
| MsgMarked (t : string)        (* "Task '{title}' marked as complete!" *)
| MsgNoTasks                    (* "No tasks found!" *)
| MsgHeader                     (* "TO-DO LIST" *)
| MsgTaskLine (ttl prio cat due : string) (done : bool)
                                (* "- {title} [{priority}] ({category}) Due: {due_date} -> {status}" *)
| MsgBlank.                     (* the empty line closing a listing *)

(** ** The task store *)

Module Store.

(** The exceptions [open] and [json.load] raise on [tasks.json]. *)
Inductive exn : Type :=
| FileNotFoundError
| PermissionError
| IsADirectoryError
| UnicodeDecodeError
| JSONDecodeError.

Definition exn_eqb (a b : exn) : bool :=
  match a, b with
  | FileNotFoundError, FileNotFoundError
  | PermissionError, PermissionError
  | IsADirectoryError, IsADirectoryError
  | UnicodeDecodeError, UnicodeDecodeError
  | JSONDecodeError, JSONDecodeError => true
  | _, _ => false
  end.

(** What a readable [tasks.json] holds: bytes that are not text in the
    file encoding, text that is not a JSON document (the empty file is
    one), or the JSON array [save_tasks] wrote. *)
Inductive content : Type :=
| BadEncoding
| BadJson
| JsonTasks (ts : list task).

(** The state of the path [TASKS_FILE]. *)
Inductive store : Type :=
| NoFile
| NoPermission
| IsDirectory
| File (c : content).

Inductive result (A : Type) : Type :=
| Ok (a : A)
| Raise (e : exn).
Arguments Ok {A} a.
Arguments Raise {A} e.

(** [open(TASKS_FILE, "r")] *)
Definition open_r (d : store) : result content :=
  match d with
  | NoFile => Raise FileNotFoundError
  | NoPermission => Raise PermissionError
  | IsDirectory => Raise IsADirectoryError
  | File c => Ok c
  end.

(** [json.load(file)] *)
Definition json_load (c : content) : result (list task) :=
  match c with
  | BadEncoding => Raise UnicodeDecodeError
  | BadJson => Raise JSONDecodeError
  | JsonTasks ts => Ok ts
  end.

Definition rbind {A B} (r : result A) (k : A -> result B) : result B :=
  match r with
  | Ok a => k a
  | Raise e => Raise e
  end.

(** [try: body except (e1, e2, ...): handler] *)
Definition try_except {A} (body : result A) (caught : list exn) (handler : result A)
  : result A :=
  match body with
  | Ok a => Ok a
  | Raise e => if existsb (exn_eqb e) caught then handler else Raise e
  end.

Definition load_tasks (d : store) : result (list task) :=
  try_except
    (rbind (open_r d) json_load)
    [FileNotFoundError; JSONDecodeError]
    (Ok []).

End Store.

Import Store.

(** ** The running program: collection, file and console *)

Record world : Type := mk_world {
  tasks : list task;        (* the list object shared by every operation *)
  disk : store;             (* the state of [tasks.json] *)
  writes : nat;             (* how many times [save_tasks] has written it *)
  stdout : list message     (* what has been printed so far *)
}.

Definition M (A : Type) : Type := world -> A * world.

Definition mret {A} (a : A) : M A := fun w => (a, w).

Definition mbind {A B} (m : M A) (k : A -> M B) : M B :=
  fun w => let '(a, w') := m w in k a w'.

Declare Scope py_scope.
Delimit Scope py_scope with py.
Notation "x <- m ;; k" := (mbind m (fun x => k))
  (at level 61, m at next level, right associativity) : py_scope.
Notation "m ;; k" := (mbind m (fun _ => k))
  (at level 61, right associativity) : py_scope.
Open Scope py_scope.

Definition exec {A} (m : M A) (w : world) : world := snd (m w).

Definition get_tasks : M (list task) := fun w => (tasks w, w).

Definition set_tasks (ts : list task) : M unit :=
  fun w => (tt, mk_world ts (disk w) (writes w) (stdout w)).

Definition print (m : message) : M unit :=
  fun w => (tt, mk_world (tasks w) (disk w) (writes w) (stdout w ++ [m])).

(** [save_tasks(tasks)]: overwrite the file with the whole collection. *)
Definition save_tasks (ts : list task) : M unit :=
  fun w => (tt, mk_world (tasks w) (File (JsonTasks ts)) (S (writes w)) (stdout w)).

(** ** Validators *)

Definition valid_priorities : list string := ["Low"; "Medium"; "High"].

Definition validate_priority (p : string) : M bool :=
  if negb (existsb (String.eqb p) valid_priorities)
  then print MsgInvalidPriority ;; mret false
  else mret true.

(** [validate_due_date]: the format is ["%Y-%m-%d"] in versions 2 and 3
    and ["%d-%m-%Y"] in version 5; [today] is [datetime.today()]. *)
Definition validate_due_date (fmt : format) (today : datetime) (due : string) : M bool :=
  match strptime fmt due with
  | Some due_date_obj =>
      if dt_ltb due_date_obj today
      then print MsgPastDueDate ;; mret false
      else mret true
  | None => print MsgInvalidDateFormat ;; mret false
  end.

(** ** Loops over the collection *)

(** [task["title"].lower() == title.lower()] *)
Definition title_matches (key : string) (t : task) : bool :=
  String.eqb (lower (title t)) (lower key).

(** [for task in tasks: if p(task): ... return]: the tasks before the
    first one satisfying [p], that task, and the tasks after it. *)
Fixpoint split_first (p : task -> bool) (l : list task)
  : option (list task * task * list task) :=
  match l with
  | [] => None
  | t :: r =>
      if p t then Some ([], t, r)
      else match split_first p r with
           | Some (pre, x, post) => Some (t :: pre, x, post)
           | None => None
           end
  end.

(** [tasks.remove(task)]: drops the first element equal to [task]. *)
Fixpoint list_remove (x : task) (l : list task) : list task :=
  match l with
  | [] => []
  | t :: r => if task_eqb t x then r else t :: list_remove x r
  end.

(** [sorted(l, key=key, reverse=reverse)]: a stable sort; with
    [reverse] the comparisons are reversed and equal keys still keep
    their original order. *)
Section PySorted.
Variable key : task -> string.
Variable reverse : bool.

(** [goes_first y x]: [y], met later in the input, must still be
    placed before [x]. *)
Definition goes_first (y x : task) : bool :=
  if reverse then String.ltb (key x) (key y) else String.ltb (key y) (key x).

Fixpoint insert_stable (x : task) (l : list task) : list task :=
  match l with
  | [] => [x]
  | y :: r => if goes_first y x then y :: insert_stable x r else x :: y :: r
  end.

Fixpoint sorted (l : list task) : list task :=
  match l with
  | [] => []
  | x :: r => insert_stable x (sorted r)
  end.
End PySorted.

Definition task_line (t : task) : message :=
  MsgTaskLine (title t) (priority t) (category t) (due_date t) (completed t).

(** [for task in tasks: print(...)] *)
Fixpoint print_tasks (l : list task) : M unit :=
  match l with
  | [] => mret tt
  | t :: r => print (task_line t) ;; print_tasks r
  end.

(** ** Operations that are the same in every version that has them *)

Definition remove_task (title_in : string) : M unit :=
  let key := strip title_in in
  ts <- get_tasks ;;
  match split_first (title_matches key) ts with
  | Some (_, t, _) =>
      set_tasks (list_remove t ts) ;;
      ts' <- get_tasks ;;
      save_tasks ts' ;;
      print (MsgRemoved key)
  | None => print MsgNotFound
  end.

Definition mark_task_complete (title_in : string) : M unit :=
  let key := strip title_in in
  ts <- get_tasks ;;
  match split_first (title_matches key) ts with
  | Some (pre, t, post) =>
      set_tasks (pre ++ set_completed t true :: post)%list ;;
      ts' <- get_tasks ;;
      save_tasks ts' ;;
      print (MsgMarked key)
  | None => print MsgNotFound
  end.

(** Versions 3 and 5. *)
Definition remove_completed_tasks : M unit :=
  ts <- get_tasks ;;
  let initial_count := List.length ts in
  set_tasks (filter (fun t => negb (completed t)) ts) ;;
  ts' <- get_tasks ;;
  if (List.length ts' <? initial_count)%nat
  then save_tasks ts' ;; print MsgCompletedRemoved
  else print MsgNoCompleted.

(** ** Versions 2 and 3 *)

(** Version 1 has the same [list_tasks]; its [add_task] and [edit_task]
    validate nothing. *)

Module V2.

Definition fmt : format := YMD.

Definition add_task (today : datetime)
    (title_in category_in priority_in due_in : string) : M unit :=
  let title := strip title_in in
  let category := strip category_in in
  let priority := capitalize (strip priority_in) in
  ok <- validate_priority priority ;;
  if negb ok then mret tt else
  let due_date := strip due_in in
  ok <- validate_due_date fmt today due_date ;;
  if negb ok then mret tt else
  let task := mk_task title category priority due_date false None in
  ts <- get_tasks ;;
  set_tasks (ts ++ [task])%list ;;
  ts' <- get_tasks ;;
  save_tasks ts' ;;
  print (MsgAdded title).

(** The sequence bound to the local name [tasks] once the [filter_by]
    branches of [list_tasks] have run. *)
Definition select (ts : list task) (filter_by : option string) : list task :=
  match filter_by with
  | Some f =>
      if String.eqb f "incomplete" then filter (fun t => negb (completed t)) ts
      else if String.eqb f "complete" then filter (fun t => completed t) ts
      else if String.eqb f "priority" then sorted priority true ts
      else if String.eqb f "due_date" then sorted due_date false ts
      else ts
  | None => ts
  end.

Definition list_tasks (filter_by : option string) : M unit :=
  ts <- get_tasks ;;
  match ts with
  | [] => print MsgNoTasks
  | _ =>
      let ts := select ts filter_by in
      print MsgHeader ;;
      print_tasks ts ;;
      print MsgBlank
  end.

Definition edit_task (today : datetime)
    (title_in new_title_in new_category_in new_priority_in new_due_in : string)
  : M unit :=
  let key := strip title_in in
  ts <- get_tasks ;;
  match split_first (title_matches key) ts with
  | Some (pre, t, post) =>
      print MsgLeaveBlank ;;
      let new_title := por (strip new_title_in) (title t) in
      let new_category := por (strip new_category_in) (category t) in
      let new_priority := por (capitalize (strip new_priority_in)) (priority t) in
      ok <- (if truthy new_priority then validate_priority new_priority else mret true) ;;
      if negb ok then mret tt else
      let new_due_date := por (strip new_due_in) (due_date t) in
      ok <- (if truthy new_due_date then validate_due_date fmt today new_due_date
             else mret true) ;;
      if negb ok then mret tt else
      let t' := mk_task new_title new_category new_priority new_due_date
                        (completed t) (comments t) in
      set_tasks (pre ++ t' :: post)%list ;;
      ts' <- get_tasks ;;
      save_tasks ts' ;;
      print (MsgUpdated new_title)
  | None => print MsgNotFound
  end.

End V2.

(** ** Version 5 *)

Module V5.

Definition fmt : format := DMY.

Definition add_task (today : datetime)
    (title_in category_in priority_in due_in comments_in : string) : M unit :=
  let title := strip title_in in
  let category := strip category_in in
  let priority := capitalize (strip priority_in) in
  ok <- validate_priority priority ;;
  if negb ok then mret tt else
  let due_date := strip due_in in
  ok <- validate_due_date fmt today due_date ;;
  if negb ok then mret tt else
  let additional_comments := strip comments_in in
  let task := mk_task title category priority due_date false
                (if truthy additional_comments then Some additional_comments else None) in
  ts <- get_tasks ;;
  set_tasks (ts ++ [task])%list ;;
  ts' <- get_tasks ;;
  save_tasks ts' ;;
  print (MsgAdded title).

Definition remove_all_tasks (confirm_in : string) : M unit :=
  let confirm := lower (strip confirm_in) in
  if String.eqb confirm "yes"
  then set_tasks [] ;; ts' <- get_tasks ;; save_tasks ts' ;; print MsgAllRemoved
  else print MsgRemovalCanceled.

Definition edit_task (today : datetime)
    (title_in new_title_in new_category_in new_priority_in new_due_in
     new_comments_in : string) : M unit :=
  let key := strip title_in in
  ts <- get_tasks ;;
  match split_first (title_matches key) ts with
  | Some (pre, t, post) =>
      print MsgLeaveBlank ;;
      let new_title := por (strip new_title_in) (title t) in
      let new_category := por (strip new_category_in) (category t) in
      let new_priority := por (capitalize (strip new_priority_in)) (priority t) in
      ok <- (if truthy new_priority then validate_priority new_priority else mret true) ;;
      if negb ok then mret tt else
      let new_due_date := por (strip new_due_in) (due_date t) in
      ok <- (if truthy new_due_date then validate_due_date fmt today new_due_date
             else mret true) ;;
      if negb ok then mret tt else
      match comments t with
      | Some (String a c) => print (MsgCurrentComments (String a c))
      | _ => print MsgNoComments
      end ;;
      let new_comments := strip new_comments_in in
      let comments' := if truthy new_comments then Some new_comments else comments t in
      let t' := mk_task new_title new_category new_priority new_due_date
                        (completed t) comments' in
      set_tasks (pre ++ t' :: post)%list ;;
      ts' <- get_tasks ;;
      save_tasks ts' ;;
      print (MsgUpdated new_title)
  | None => print MsgNotFound
  end.

(** [filter_by] is accepted and never read. *)
Definition list_tasks (filter_by : option string) : M unit :=
  ts <- get_tasks ;;
  match ts with
  | [] => print MsgNoTasks
  | _ =>
      print MsgHeader ;;
      print_tasks ts ;;
      print MsgBlank
  end.

End V5.

Open Scope list_scope.

(** ** Vocabulary of the statements *)

Definition priority_ok (p : string) : bool := existsb (String.eqb p) valid_priorities.

(** [w] after the lines [ms] have been printed. *)
Definition printed (w : world) (ms : list message) : world :=
  mk_world (tasks w) (disk w) (writes w) (stdout w ++ ms).

Definition filter_name (want_completed : bool) : string :=
  if want_completed then "complete" else "incomplete".

(** The rank mapping of the specification. *)
Definition rank (p : string) : Z :=
  if String.eqb p "High" then 3
  else if String.eqb p "Medium" then 2
  else if String.eqb p "Low" then 1
  else 0.

(** The order of the three priority names as strings:
    ["High" < "Low" < "Medium"]. *)
Definition lexical_rank (p : string) : Z :=
  if String.eqb p "Medium" then 3
  else if String.eqb p "Low" then 2
  else if String.eqb p "High" then 1
  else 0.

Definition descending (r : string -> Z) (key : task -> string) : list task -> Prop :=
  StronglySorted (fun a b => r (key b) <= r (key a)).

(** An operation was refused: one warning printed, collection and file
    as before, nothing written. *)
Definition refused (w w' : world) (m : message) : Prop :=
  tasks w' = tasks w /\ disk w' = disk w /\ writes w' = writes w /\
  stdout w' = stdout w ++ [m].

(** The collection was changed to [ts] and written through to the file. *)
Definition committed (w w' : world) (ts : list task) (m : list message) : Prop :=
  tasks w' = ts /\ disk w' = File (JsonTasks ts) /\ writes w' = S (writes w) /\
  stdout w' = stdout w ++ m.

(** The dictionary [add_task] builds from the answers typed. *)
Definition new_task (title_in category_in priority_in due_in comments_in : string) : task :=
  mk_task (strip title_in) (strip category_in) (capitalize (strip priority_in))
          (strip due_in) false
          (if truthy (strip comments_in) then Some (strip comments_in) else None).

(** The task a title-keyed operation acts on. *)
Definition lookup (key : string) (ts : list task) : option task :=
  match split_first (title_matches key) ts with
  | Some (_, t, _) => Some t
  | None => None
  end.

Definition pending (t : task) : bool := negb (completed t).

Definition blank (s : string) : Prop := strip s = "".

(** One choice of the main menu, with the answers typed and, where the
    operation validates a date, the clock at that moment. *)
Inductive op : Type :=
| AddTask (today : datetime) (title_in category_in priority_in due_in comments_in : string)
| EditTask (today : datetime)
       (title_in new_title_in new_category_in new_priority_in new_due_in
        new_comments_in : string)
| RemoveTask (title_in : string)
| MarkTaskComplete (title_in : string)
| RemoveCompletedTasks
| RemoveAllTasks (confirm_in : string).

Definition step (o : op) : M unit :=
  match o with
  | AddTask today ti ci pi di mi => V5.add_task today ti ci pi di mi
  | EditTask today ti a b c d e => V5.edit_task today ti a b c d e
  | RemoveTask ti => remove_task ti
  | MarkTaskComplete ti => mark_task_complete ti
  | RemoveCompletedTasks => remove_completed_tasks
  | RemoveAllTasks c => V5.remove_all_tasks c
  end.

Fixpoint run (ops : list op) (w : world) : world :=
  match ops with
  | [] => w
  | o :: r => run r (exec (step o) w)
  end.

(** The program starts on an empty collection. *)
Definition start (d : store) : world := mk_world [] d 0 [].

Definition has_title (t : task) : Prop := title t <> "".

(** [add_task] is given a title that is not blank. *)
Definition titled (o : op) : Prop :=
  match o with
  | AddTask _ ti _ _ _ _ => strip ti <> ""
  | _ => True
  end.

(** What [edit_task] decides for the task it found: the warning that
    cancels the edit, or the task as updated. *)
Definition edited (today : datetime) (a b c d e : string) (t : task) : message + task :=
  let new_title := por (strip a) (title t) in
  let new_category := por (strip b) (category t) in
  let new_priority := por (capitalize (strip c)) (priority t) in
  let new_due_date := por (strip d) (due_date t) in
  let t' := mk_task new_title new_category new_priority new_due_date (completed t)
              (if truthy (strip e) then Some (strip e) else comments t) in
  if truthy new_priority && negb (priority_ok new_priority) then inl MsgInvalidPriority
  else if truthy new_due_date then
    match strptime V5.fmt new_due_date with
    | None => inl MsgInvalidDateFormat
    | Some dt => if dt_ltb dt today then inl MsgPastDueDate else inr t'
    end
  else inr t'.

Definition comments_line (t : task) : message :=
  match comments t with
  | Some (String x y) => MsgCurrentComments (String x y)
  | _ => MsgNoComments
  end.

(** ** Further code of the scripts *)

(** *** Version 1: [add_task] and [edit_task] validate nothing *)

Module V1.

Definition add_task (title_in category_in priority_in due_in : string) : M unit :=
  let title := strip title_in in
  let category := strip category_in in
  let priority := capitalize (strip priority_in) in
  let due_date := strip due_in in
  let task := mk_task title category priority due_date false None in
  ts <- get_tasks ;;
  set_tasks (ts ++ [task]) ;;
  ts' <- get_tasks ;;
  save_tasks ts' ;;
  print (MsgAdded title).

Definition edit_task
    (title_in new_title_in new_category_in new_priority_in new_due_in : string)
  : M unit :=
  let key := strip title_in in
  ts <- get_tasks ;;
  match split_first (title_matches key) ts with
  | Some (pre, t, post) =>
      print MsgLeaveBlank ;;
      let new_title := por (strip new_title_in) (title t) in
      let new_category := por (strip new_category_in) (category t) in
      let new_priority := por (capitalize (strip new_priority_in)) (priority t) in
      let new_due_date := por (strip new_due_in) (due_date t) in
      let t' := mk_task new_title new_category new_priority new_due_date
                        (completed t) (comments t) in
      set_tasks (pre ++ t' :: post) ;;
      ts' <- get_tasks ;;
      save_tasks ts' ;;
      print (MsgUpdated new_title)
  | None => print MsgNotFound
  end.

End V1.

(** *** Version 5: [sort_tasks_by_category] and [view_task_comments]

    Both only read the collection; they are embedded as the lines they
    print. *)

Inductive line : Type :=
| LineNoTasks                     (* "No tasks found!" *)
| LineCategoryHeader              (* "TO-DO LIST (Sorted by Category)" *)
| LineTask (ttl prio cat due : string) (done : bool)
| LineBlank
| LineCommentsFor (t : string)    (* "Additional comments for '{title}':" *)
| LineText (c : string)           (* the comments *)
| LineNoCommentsFor (t : string)  (* "No additional comments for '{title}'." *)
| LineNotFound.                   (* "Task not found!" *)

Definition line_of_task (t : task) : line :=
  LineTask (title t) (priority t) (category t) (due_date t) (completed t).

(** [lambda t: t["category"].lower()] *)
Definition category_key (t : task) : string := lower (category t).

Definition sort_tasks_by_category (ts : list task) : list line :=
  match ts with
  | [] => [LineNoTasks]
  | _ =>
      let sorted_tasks := sorted category_key false ts in
      [LineCategoryHeader] ++ map line_of_task sorted_tasks ++ [LineBlank]
  end.

Definition view_task_comments (title_in : string) (ts : list task) : list line :=
  let key := strip title_in in
  match split_first (title_matches key) ts with
  | Some (_, t, _) =>
      match comments t with
      | Some (String a c) => [LineCommentsFor (title t); LineText (String a c)]
      | _ => [LineNoCommentsFor (title t)]
      end
  | None => [LineNotFound]
  end.

(** *** The first statement of [main]: [tasks = load_tasks()]

    An exception of [load_tasks] ends the program before the menu. *)
Definition boot (d : store) : result world :=
  rbind (load_tasks d) (fun ts => Ok (mk_world ts d 0 [])).

(** ** Vocabulary of the further statements *)

(** Reading the file back gives the collection in memory. *)
Definition in_sync (w : world) : Prop := load_tasks (disk w) = Ok (tasks w).

(** No task of [ts] answers to the title [key]. *)
Definition absent (key : string) (ts : list task) : Prop :=
  Forall (fun x => lower (title x) <> lower key) ts.

(** What version 5 accepts in a task: a priority among the three names
    and a due date that parses as day-month-year. *)
Definition well_formed (t : task) : Prop :=
  priority_ok (priority t) = true /\ strptime V5.fmt (due_date t) <> None.

Definition not_marking (o : op) : Prop :=
  match o with
  | MarkTaskComplete _ => False
  | _ => True
  end.

(** [l] is in the order [sorted] aims at: no task should go before one
    listed earlier. *)
Definition in_order (key : task -> string) (reverse : bool) (l : list task) : Prop :=
  StronglySorted (fun a b => goes_first key reverse b a = false) l.

(** [s] is empty or begins with a character that is not white space. *)
Definition lstripped (s : string) : Prop :=
  match s with
  | EmptyString => True
  | String c _ => is_space c = false
  end.

(** [t'] is [t] with no field cleared: what was not empty is not empty. *)
Definition keeps_fields (t t' : task) : Prop :=
  completed t' = completed t /\
  (title t <> "" -> title t' <> "") /\
  (category t <> "" -> category t' <> "") /\
  (priority t <> "" -> priority t' <> "") /\
  (due_date t <> "" -> due_date t' <> "") /\
  (forall x y, comments t = Some (String x y) ->
               exists x' y', comments t' = Some (String x' y')).

(** The priority typed is one of the three names, in any casing. *)
Definition names_priority (s : string) : Prop :=
  lower (strip s) = "low" \/ lower (strip s) = "medium" \/ lower (strip s) = "high".

(** * Properties *)

(** ** The task store: [load_tasks] *)

(** What [save_tasks] wrote is what [load_tasks] reads back. *)
Lemma load_after_save (ts : list task) (w : world) :
  load_tasks (disk (exec (save_tasks ts) w)) = Ok ts.
Proof. reflexivity. Qed.

(** A file whose bytes are not text is not caught either: the
    [UnicodeDecodeError] of [json.load] is a [ValueError] but not a
    [JSONDecodeError]. *)
Lemma load_tasks_bad_encoding :
  load_tasks (File BadEncoding) = Raise UnicodeDecodeError.
Proof. reflexivity. Qed.

(** C7, as stated, fails: when [tasks.json] exists and cannot be opened
    for reading, [open] raises [PermissionError], the [except] clause
    names only [FileNotFoundError] and [JSONDecodeError], and the error
    reaches the caller. *)
Lemma load_tasks_raises_permission_error :
  load_tasks NoPermission = Raise PermissionError.
Proof. reflexivity. Qed.

(** C7 (amended): for every state of the file, [load_tasks] returns the
    persisted tasks when the file holds them, returns the empty list when
    the file is absent or its text is not valid JSON, and otherwise (the
    file cannot be opened for another reason, or its bytes cannot be
    decoded) lets the exception of [open] or [json.load] reach the
    caller; these are the only exceptions it raises. *)
Theorem load_tasks_spec (d : store) :
  match d with
  | File (JsonTasks ts) => load_tasks d = Ok ts
  | NoFile | File BadJson => load_tasks d = Ok []
  | NoPermission => load_tasks d = Raise PermissionError
  | IsDirectory => load_tasks d = Raise IsADirectoryError
  | File BadEncoding => load_tasks d = Raise UnicodeDecodeError
  end.
Proof. destruct d as [ | | | [ | | ts]]; reflexivity. Qed.

(** ** Validators *)

Lemma priority_ok_iff (p : string) :
  priority_ok p = true <-> p = "Low" \/ p = "Medium" \/ p = "High".
Proof.
  unfold priority_ok, valid_priorities; simpl.
  rewrite !orb_true_iff, !String.eqb_eq. intuition discriminate.
Qed.

Lemma validate_priority_run (p : string) (w : world) :
  validate_priority p w =
    if priority_ok p then (true, w)
    else (false, mk_world (tasks w) (disk w) (writes w) (stdout w ++ [MsgInvalidPriority])).
Proof.
  unfold validate_priority, priority_ok.
  destruct (existsb (String.eqb p) valid_priorities); reflexivity.
Qed.

Lemma validate_due_date_run (fmt : format) (today : datetime) (s : string) (w : world) :
  validate_due_date fmt today s w =
    match strptime fmt s with
    | Some d =>
        if dt_ltb d today
        then (false, mk_world (tasks w) (disk w) (writes w) (stdout w ++ [MsgPastDueDate]))
        else (true, w)
    | None =>
        (false, mk_world (tasks w) (disk w) (writes w) (stdout w ++ [MsgInvalidDateFormat]))
    end.
Proof.
  unfold validate_due_date.
  destruct (strptime fmt s) as [d | ]; [destruct (dt_ltb d today) | ]; reflexivity.
Qed.

(** What the code accepts: the value parses and midnight of the parsed
    day is not before the current instant. *)
Lemma validate_due_date_true_iff (fmt : format) (today : datetime) (s : string) (w : world) :
  fst (validate_due_date fmt today s w) = true <->
  exists d, strptime fmt s = Some d /\ dt_ltb d today = false.
Proof.
  rewrite validate_due_date_run.
  destruct (strptime fmt s) as [d | ] eqn:E.
  - destruct (dt_ltb d today) eqn:L; simpl; split.
    + discriminate.
    + intros [d' [H1 H2]]. injection H1 as <-. congruence.
    + intros _. now exists d.
    + reflexivity.
  - simpl; split; [discriminate | intros [d [H _]]; discriminate].
Qed.

Lemma lex_ltb_irrefl (l : list Z) : lex_ltb l l = false.
Proof.
  induction l as [ | x l IH]; simpl; [reflexivity | ].
  rewrite Z.ltb_irrefl, Z.eqb_refl, IH. reflexivity.
Qed.

(** A due date on the current day is rejected at every instant of that
    day but midnight. *)
Lemma due_today_rejected (fmt : format) (today d : datetime) (s : string) (w : world) :
  strptime fmt s = Some d ->
  date_of d = date_of today ->
  (hour today, minute today, second today, microsecond today) <> (0, 0, 0, 0) ->
  0 <= hour today -> 0 <= minute today -> 0 <= second today -> 0 <= microsecond today ->
  fst (validate_due_date fmt today s w) = false.
Proof.
  intros Hp Hd Hnz Hh Hm Hs Hu.
  rewrite validate_due_date_run, Hp.
  assert (Hmid : hour d = 0 /\ minute d = 0 /\ second d = 0 /\ microsecond d = 0).
  { unfold strptime in Hp.
    destruct (format_re fmt s) as [ | [[[y m] dd] rest] l]; [discriminate | ].
    destruct rest; [ | discriminate].
    destruct ((1 <=? y) && (y <=? 9999) && (dd <=? days_in_month y m));
      [ | discriminate].
    injection Hp as <-. simpl. auto. }
  destruct Hmid as (H1 & H2 & H3 & H4).
  unfold date_of in Hd. injection Hd as Hy Hmo Hda.
  assert (L : dt_ltb d today = true).
  { unfold dt_ltb, fields. rewrite Hy, Hmo, Hda, H1, H2, H3, H4. simpl.
    rewrite !Z.ltb_irrefl, !Z.eqb_refl. simpl.
    destruct (Z.ltb_spec 0 (hour today)); [reflexivity | ].
    assert (Eh : hour today = 0) by lia. rewrite Eh. simpl.
    destruct (Z.ltb_spec 0 (minute today)); [reflexivity | ].
    assert (Em : minute today = 0) by lia. rewrite Em. simpl.
    destruct (Z.ltb_spec 0 (second today)); [reflexivity | ].
    assert (Es : second today = 0) by lia. rewrite Es. simpl.
    destruct (Z.ltb_spec 0 (microsecond today)); [reflexivity | ].
    assert (Eu : microsecond today = 0) by lia.
    exfalso. apply Hnz. rewrite Eh, Em, Es, Eu. reflexivity. }
  rewrite L. reflexivity.
Qed.

(** C2: at noon of 3 November 2026 the due date "2026-11-03" (version 2)
    and "03-11-2026" (version 5) parse, name the current day, and are
    rejected with the "past due date" warning. *)
Theorem validate_due_date_rejects_today :
  let today := mk_datetime 2026 11 3 12 0 0 0 in
  let w := mk_world [] NoFile 0 [] in
  (exists d, strptime V2.fmt "2026-11-03" = Some d /\ date_of d = date_of today) /\
  (exists d, strptime V5.fmt "03-11-2026" = Some d /\ date_of d = date_of today) /\
  validate_due_date V2.fmt today "2026-11-03" w =
    (false, mk_world [] NoFile 0 [MsgPastDueDate]) /\
  validate_due_date V5.fmt today "03-11-2026" w =
    (false, mk_world [] NoFile 0 [MsgPastDueDate]).
Proof.
  cbv zeta. repeat split.
  - eexists; split; reflexivity.
  - eexists; split; reflexivity.
Qed.

(** ** Listing queries *)

Lemma printed_nil (w : world) : printed w [] = w.
Proof. destruct w; unfold printed; simpl; now rewrite app_nil_r. Qed.

Lemma printed_printed (w : world) (a b : list message) :
  printed (printed w a) b = printed w (a ++ b).
Proof. unfold printed; simpl; now rewrite app_assoc. Qed.

Lemma print_tasks_run (l : list task) (w : world) :
  print_tasks l w = (tt, printed w (map task_line l)).
Proof.
  revert w; induction l as [ | t l IH]; intros w; simpl.
  - now rewrite printed_nil.
  - unfold mbind, print; simpl. rewrite IH.
    unfold printed; simpl. now rewrite <- app_assoc.
Qed.

Lemma list_tasks_v2_run (filter_by : option string) (w : world) :
  exec (V2.list_tasks filter_by) w =
    match tasks w with
    | [] => printed w [MsgNoTasks]
    | _ => printed w ([MsgHeader] ++ map task_line (V2.select (tasks w) filter_by)
                        ++ [MsgBlank])
    end.
Proof.
  unfold exec, V2.list_tasks, mbind, get_tasks; simpl.
  destruct (tasks w) as [ | t l] eqn:E; [reflexivity | ].
  unfold print at 1; simpl. rewrite print_tasks_run.
  unfold print, printed; simpl. rewrite E, <- !app_assoc. reflexivity.
Qed.

(** Versions 1 to 3: the completion branches of [list_tasks] show
    exactly the tasks whose [completed] field is the flag, in their
    original order, and leave the collection and the file alone. *)
Lemma list_tasks_v2_filters (flag : bool) (w : world) :
  let w' := exec (V2.list_tasks (Some (filter_name flag))) w in
  V2.select (tasks w) (Some (filter_name flag)) =
    filter (fun t => Bool.eqb (completed t) flag) (tasks w) /\
  (tasks w <> [] ->
   stdout w' = stdout w ++ [MsgHeader]
                 ++ map task_line (filter (fun t => Bool.eqb (completed t) flag) (tasks w))
                 ++ [MsgBlank]) /\
  tasks w' = tasks w /\ disk w' = disk w /\ writes w' = writes w.
Proof.
  cbv zeta.
  assert (S : V2.select (tasks w) (Some (filter_name flag)) =
              filter (fun t => Bool.eqb (completed t) flag) (tasks w)).
  { destruct flag; simpl; apply filter_ext; intros t; now destruct (completed t). }
  rewrite list_tasks_v2_run. split; [exact S | ].
  destruct (tasks w) as [ | t l] eqn:E.
  - split; [intros H; now elim H | ].
    repeat split; simpl; now rewrite ?E.
  - rewrite S. repeat split; simpl; now rewrite ?E.
Qed.

(** C4: version 5 accepts [filter_by] and never reads it.  With one
    completed and one pending task, "List Pending Tasks"
    ([filter_by="incomplete"]) and "List Completed Tasks"
    ([filter_by="complete"]) both print the two tasks, where the
    [list_tasks] of versions 1 to 3 prints one. *)
Theorem list_tasks_v5_ignores_filter :
  let done := mk_task "Pay rent" "Home" "High" "01-12-2026" true None in
  let todo := mk_task "Buy milk" "Home" "Low" "02-12-2026" false None in
  let w := mk_world [done; todo] (File (JsonTasks [done; todo])) 2 [] in
  stdout (exec (V5.list_tasks (Some "incomplete")) w) =
    [MsgHeader; task_line done; task_line todo; MsgBlank] /\
  stdout (exec (V5.list_tasks (Some "complete")) w) =
    [MsgHeader; task_line done; task_line todo; MsgBlank] /\
  stdout (exec (V2.list_tasks (Some "incomplete")) w) =
    [MsgHeader; task_line todo; MsgBlank] /\
  stdout (exec (V2.list_tasks (Some "complete")) w) =
    [MsgHeader; task_line done; MsgBlank].
Proof. cbv zeta. repeat split. Qed.

(** *** [sorted] *)

Lemma ltb_irrefl (s : string) : String.ltb s s = false.
Proof.
  unfold String.ltb.
  pose proof (String.compare_antisym s s) as H.
  destruct (String.compare s s); simpl in H; try discriminate; reflexivity.
Qed.

Section SortedFacts.
Variable key : task -> string.
Variable reverse : bool.

Lemma goes_first_diff (y x : task) :
  goes_first key reverse y x = true -> key y <> key x.
Proof.
  unfold goes_first. intros H E. rewrite E in H.
  destruct reverse; rewrite ltb_irrefl in H; discriminate.
Qed.

Lemma insert_stable_perm (x : task) (l : list task) :
  Permutation (insert_stable key reverse x l) (x :: l).
Proof.
  induction l as [ | y l IH]; simpl; [constructor; constructor | ].
  destruct (goes_first key reverse y x); [ | apply Permutation_refl].
  eapply perm_trans; [apply perm_skip, IH | apply perm_swap].
Qed.

(** The output is a reordering of the input. *)
Lemma sorted_perm (l : list task) : Permutation (sorted key reverse l) l.
Proof.
  induction l as [ | x l IH]; simpl; [constructor | ].
  eapply perm_trans; [apply insert_stable_perm | now apply perm_skip].
Qed.

Lemma insert_stable_filter (k : string) (x : task) (l : list task) :
  filter (fun t => String.eqb (key t) k) (insert_stable key reverse x l) =
  filter (fun t => String.eqb (key t) k) (x :: l).
Proof.
  induction l as [ | y l IH]; [reflexivity | ].
  simpl insert_stable.
  destruct (goes_first key reverse y x) eqn:G; [ | reflexivity].
  apply goes_first_diff in G.
  simpl in *. rewrite IH.
  destruct (String.eqb_spec (key y) k) as [Ey | Ey];
    destruct (String.eqb_spec (key x) k) as [Ex | Ex]; try reflexivity.
  congruence.
Qed.

(** The sort is stable: the tasks sharing a key keep their order. *)
Lemma sorted_stable (k : string) (l : list task) :
  filter (fun t => String.eqb (key t) k) (sorted key reverse l) =
  filter (fun t => String.eqb (key t) k) l.
Proof.
  induction l as [ | x l IH]; [reflexivity | ].
  simpl sorted. rewrite insert_stable_filter. simpl. now rewrite IH.
Qed.
End SortedFacts.

(** *** Sorting by priority *)

Section DescendingByRank.
Variable key : task -> string.
Variable r : string -> Z.
Variable P : string -> Prop.
Hypothesis ltb_rank : forall a b, P a -> P b -> String.ltb a b = (r a <? r b).

Lemma insert_stable_descending (x : task) (l : list task) :
  P (key x) -> Forall (fun t => P (key t)) l ->
  descending r key l -> descending r key (insert_stable key true x l).
Proof.
  intros Px Hl Hs. induction Hs as [ | y l Hs IH Hy]; simpl.
  - repeat constructor.
  - inversion Hl as [ | ? ? Py Hl']; subst.
    unfold goes_first. rewrite (ltb_rank _ _ Px Py).
    destruct (Z.ltb_spec (r (key x)) (r (key y))) as [Lt | Ge].
    + constructor; [now apply IH | ].
      eapply Permutation_Forall;
        [apply Permutation_sym, insert_stable_perm | ].
      constructor; [lia | exact Hy].
    + constructor; [now constructor | ].
      constructor; [lia | ].
      eapply Forall_impl; [ | exact Hy]. simpl; intros; lia.
Qed.

Lemma sorted_descending (l : list task) :
  Forall (fun t => P (key t)) l -> descending r key (sorted key true l).
Proof.
  induction l as [ | x l IH]; intros H; simpl; [constructor | ].
  inversion H; subst.
  apply insert_stable_descending; auto.
  eapply Permutation_Forall; [apply Permutation_sym, sorted_perm | assumption].
Qed.
End DescendingByRank.

Lemma ltb_lexical_rank (a b : string) :
  priority_ok a = true -> priority_ok b = true ->
  String.ltb a b = (lexical_rank a <? lexical_rank b).
Proof.
  rewrite !priority_ok_iff.
  intros [-> | [-> | ->]] [-> | [-> | ->]]; reflexivity.
Qed.

(** What the priority branch of [list_tasks] computes on valid
    priorities: a stable reordering, descending in the order of the
    priority names as strings, Medium before Low before High. *)
Lemma sort_by_priority_lexical (ts : list task) :
  Forall (fun t => priority_ok (priority t) = true) ts ->
  let out := V2.select ts (Some "priority") in
  Permutation out ts /\
  (forall p, filter (fun t => String.eqb (priority t) p) out =
             filter (fun t => String.eqb (priority t) p) ts) /\
  descending lexical_rank priority out.
Proof.
  intros H. cbv zeta. change (V2.select ts (Some "priority")) with (sorted priority true ts).
  split; [apply sorted_perm | split].
  - intros p. apply sorted_stable.
  - apply sorted_descending with (P := fun p => priority_ok p = true); auto.
    intros; now apply ltb_lexical_rank.
Qed.

(** C1: on the tasks High, Low, Medium the priority branch of
    [list_tasks] (versions 1 to 3) lists Medium, Low, High: the key is
    the priority name and ["Medium" > "Low" > "High"] as strings.  The
    ranks of the listed tasks under High:3, Medium:2, Low:1 are 2, 1, 3,
    which is not descending. *)
Theorem sort_by_priority_high_low_medium :
  let high := mk_task "a" "Work" "High" "2026-12-01" false None in
  let low := mk_task "b" "Work" "Low" "2026-12-01" false None in
  let medium := mk_task "c" "Work" "Medium" "2026-12-01" false None in
  let w := mk_world [high; low; medium] (File (JsonTasks [high; low; medium])) 3 [] in
  V2.select [high; low; medium] (Some "priority") = [medium; low; high] /\
  stdout (exec (V2.list_tasks (Some "priority")) w) =
    [MsgHeader; task_line medium; task_line low; task_line high; MsgBlank] /\
  map (fun t => rank (priority t)) (V2.select [high; low; medium] (Some "priority")) =
    [2; 1; 3] /\
  ~ descending rank priority (V2.select [high; low; medium] (Some "priority")).
Proof.
  cbv zeta. repeat split.
  intros H. simpl in H.
  inversion H as [ | ? ? _ F]; subst.
  inversion F as [ | ? ? _ F']; subst.
  inversion F' as [ | ? ? L _]; subst.
  vm_compute in L. apply L. reflexivity.
Qed.

(** ** Task operations *)

(** *** [add_task] *)

Lemma add_task_run (today : datetime) (ti ci pi di mi : string) (w : world) :
  exec (V5.add_task today ti ci pi di mi) w =
    if priority_ok (capitalize (strip pi)) then
      match strptime V5.fmt (strip di) with
      | Some d =>
          if dt_ltb d today then printed w [MsgPastDueDate]
          else let ts := tasks w ++ [new_task ti ci pi di mi] in
               mk_world ts (File (JsonTasks ts)) (S (writes w))
                        (stdout w ++ [MsgAdded (strip ti)])
      | None => printed w [MsgInvalidDateFormat]
      end
    else printed w [MsgInvalidPriority].
Proof.
  unfold exec, V5.add_task, mbind.
  rewrite validate_priority_run.
  destruct (priority_ok (capitalize (strip pi))); simpl; [ | reflexivity].
  rewrite validate_due_date_run.
  destruct (strptime V5.fmt (strip di)) as [d | ]; [ | reflexivity].
  destruct (dt_ltb d today); reflexivity.
Qed.

(** Versions 2 and 3 ask for no comment and read the date as
    year-month-day; otherwise their [add_task] decides as version 5's. *)
Lemma add_task_v2_run (today : datetime) (ti ci pi di : string) (w : world) :
  exec (V2.add_task today ti ci pi di) w =
    if priority_ok (capitalize (strip pi)) then
      match strptime V2.fmt (strip di) with
      | Some d =>
          if dt_ltb d today then printed w [MsgPastDueDate]
          else let ts := tasks w ++ [new_task ti ci pi di ""] in
               mk_world ts (File (JsonTasks ts)) (S (writes w))
                        (stdout w ++ [MsgAdded (strip ti)])
      | None => printed w [MsgInvalidDateFormat]
      end
    else printed w [MsgInvalidPriority].
Proof.
  unfold exec, V2.add_task, mbind.
  rewrite validate_priority_run.
  destruct (priority_ok (capitalize (strip pi))); simpl; [ | reflexivity].
  rewrite validate_due_date_run.
  destruct (strptime V2.fmt (strip di)) as [d | ]; [ | reflexivity].
  destruct (dt_ltb d today); reflexivity.
Qed.

Lemma lex_ltb_prefix_lt (a b x y : list Z) :
  List.length a = List.length b -> lex_ltb a b = true -> lex_ltb (a ++ x) (b ++ y) = true.
Proof.
  revert b; induction a as [ | u a IH]; intros [ | v b] L H; try discriminate.
  simpl in *. injection L as L.
  destruct (u <? v); [reflexivity | ]. simpl in *.
  destruct (u =? v); [ | discriminate]. simpl in *. now apply IH.
Qed.

Lemma lex_ltb_prefix_gt (a b x y : list Z) :
  List.length a = List.length b -> lex_ltb b a = true -> lex_ltb (a ++ x) (b ++ y) = false.
Proof.
  revert b; induction a as [ | u a IH]; intros [ | v b] L H; try discriminate.
  simpl in *. injection L as L.
  destruct (Z.ltb_spec v u) as [Lt | Ge]; simpl in H.
  - destruct (Z.ltb_spec u v); [lia | ]. destruct (Z.eqb_spec u v); [lia | reflexivity].
  - destruct (Z.eqb_spec v u) as [-> | ]; [ | discriminate]. simpl in H.
    rewrite Z.ltb_irrefl, Z.eqb_refl. simpl. now apply IH.
Qed.

Lemma fields_split (d : datetime) :
  fields d = [year d; month d; day d] ++ [hour d; minute d; second d; microsecond d].
Proof. reflexivity. Qed.

Lemma dt_ltb_day_before (d today : datetime) :
  date_ltb (date_of d) (date_of today) = true -> dt_ltb d today = true.
Proof.
  unfold dt_ltb, date_ltb, date_of. rewrite !fields_split. intros H.
  now apply lex_ltb_prefix_lt.
Qed.

Lemma dt_ltb_day_after (d today : datetime) :
  date_ltb (date_of today) (date_of d) = true -> dt_ltb d today = false.
Proof.
  unfold dt_ltb, date_ltb, date_of. rewrite !fields_split. intros H.
  now apply lex_ltb_prefix_gt.
Qed.

(** C5, as stated, fails on the result: [add_task] returns [None] on
    every path.  The value it returns for an accepted task and for a
    refused one is the same, so it is neither the validation error nor
    the new task; the outcome is only printed. *)
Lemma add_task_returns_nothing :
  let today := mk_datetime 2026 11 3 12 0 0 0 in
  let w := mk_world [] NoFile 0 [] in
  let good := V5.add_task today "Buy milk" "home" "high" "04-11-2026" "2 l" w in
  let bad := V5.add_task today "Buy milk" "home" "urgent" "04-11-2026" "2 l" w in
  fst good = fst bad /\
  tasks (snd good) = [mk_task "Buy milk" "home" "High" "04-11-2026" false (Some "2 l")] /\
  stdout (snd good) = [MsgAdded "Buy milk"] /\
  tasks (snd bad) = [] /\
  stdout (snd bad) = [MsgInvalidPriority].
Proof. cbv zeta. repeat split. Qed.

(** C5 (amended): [add_task] (version 5) returns nothing and prints its
    outcome.  With [p] the priority typed, stripped and capitalized, and
    [d] the due date typed, stripped:
    - [p] is none of Low, Medium, High: the "invalid priority" warning;
    - otherwise [d] does not parse as day-month-year: the "invalid date
      format" warning;
    - otherwise [d] names a day before the current day: the "past due
      date" warning;
    and in these three cases the collection and the file are as before
    and nothing is written;
    - [p] is valid and [d] names a day after the current day: exactly
      one task is appended, with the title and category typed
      (stripped), [p], [d], [completed = False] and the comment typed
      (stripped; [None] when blank), the collection is written to the
      file and the success line names the title.
    Nothing is said of a due date on the current day. *)
Theorem add_task_reports_and_appends
    (today : datetime) (ti ci pi di mi : string) (w : world) :
  let p := capitalize (strip pi) in
  let d := strip di in
  let valid := p = "Low" \/ p = "Medium" \/ p = "High" in
  let w' := exec (V5.add_task today ti ci pi di mi) w in
  (~ valid -> refused w w' MsgInvalidPriority) /\
  (valid -> strptime V5.fmt d = None -> refused w w' MsgInvalidDateFormat) /\
  (valid ->
   forall dt, strptime V5.fmt d = Some dt ->
              date_ltb (date_of dt) (date_of today) = true ->
              refused w w' MsgPastDueDate) /\
  (valid ->
   forall dt, strptime V5.fmt d = Some dt ->
              date_ltb (date_of today) (date_of dt) = true ->
              committed w w'
                (tasks w ++
                 [mk_task (strip ti) (strip ci) p d false
                    match strip mi with
                    | EmptyString => None
                    | String _ _ => Some (strip mi)
                    end])
                [MsgAdded (strip ti)]).
Proof.
  cbv zeta. rewrite add_task_run.
  destruct (priority_ok (capitalize (strip pi))) eqn:Ep.
  - apply priority_ok_iff in Ep.
    split; [intros N; now elim N | ].
    destruct (strptime V5.fmt (strip di)) as [dt | ] eqn:Es.
    + split; [intros _ H; discriminate | ].
      split; intros _ dt' [= <-] Hd.
      * rewrite (dt_ltb_day_before _ _ Hd). repeat split.
      * rewrite (dt_ltb_day_after _ _ Hd). cbv zeta. unfold new_task.
        destruct (strip mi); repeat split.
    + split; [intros _ _; repeat split | ].
      split; intros _ dt' H; discriminate.
  - assert (N : ~ (capitalize (strip pi) = "Low" \/ capitalize (strip pi) = "Medium"
                   \/ capitalize (strip pi) = "High")).
    { intros V. apply priority_ok_iff in V. congruence. }
    split; [intros _; repeat split | ].
    split; [intros V; now elim N | ].
    split; intros V; now elim N.
Qed.

Lemma add_task_reports_and_appends_witness :
  let today := mk_datetime 2026 11 3 12 0 0 0 in
  let w := mk_world [mk_task "Pay rent" "home" "Low" "01-12-2026" true None]
                    NoFile 0 [] in
  committed w (exec (V5.add_task today " Buy milk " " home" "hIGH" " 04-11-2026" " 2 l ") w)
            [mk_task "Pay rent" "home" "Low" "01-12-2026" true None;
             mk_task "Buy milk" "home" "High" "04-11-2026" false (Some "2 l")]
            [MsgAdded "Buy milk"] /\
  committed w (exec (V5.add_task today "Buy milk" "home" "low" "4-11-2026" "  ") w)
            [mk_task "Pay rent" "home" "Low" "01-12-2026" true None;
             mk_task "Buy milk" "home" "Low" "4-11-2026" false None]
            [MsgAdded "Buy milk"] /\
  refused w (exec (V5.add_task today "Buy milk" "home" "urgent" "04-11-2026" "") w)
          MsgInvalidPriority /\
  refused w (exec (V5.add_task today "Buy milk" "home" "high" "2026-11-04" "") w)
          MsgInvalidDateFormat /\
  refused w (exec (V5.add_task today "Buy milk" "home" "high" "02-11-2026" "") w)
          MsgPastDueDate.
Proof.
  cbv zeta. split; [ | split; [ | split; [ | split]]].
  - destruct (add_task_reports_and_appends (mk_datetime 2026 11 3 12 0 0 0)
                " Buy milk " " home" "hIGH" " 04-11-2026" " 2 l "
                (mk_world [mk_task "Pay rent" "home" "Low" "01-12-2026" true None]
                   NoFile 0 []))
      as (_ & _ & _ & H).
    apply (H (or_intror (or_intror eq_refl)) (mk_datetime 2026 11 4 0 0 0 0));
      reflexivity.
  - destruct (add_task_reports_and_appends (mk_datetime 2026 11 3 12 0 0 0)
                "Buy milk" "home" "low" "4-11-2026" "  "
                (mk_world [mk_task "Pay rent" "home" "Low" "01-12-2026" true None]
                   NoFile 0 []))
      as (_ & _ & _ & H).
    apply (H (or_introl eq_refl) (mk_datetime 2026 11 4 0 0 0 0)); reflexivity.
  - destruct (add_task_reports_and_appends (mk_datetime 2026 11 3 12 0 0 0)
                "Buy milk" "home" "urgent" "04-11-2026" ""
                (mk_world [mk_task "Pay rent" "home" "Low" "01-12-2026" true None]
                   NoFile 0 []))
      as (H & _).
    apply H. intros [V | [V | V]]; discriminate V.
  - destruct (add_task_reports_and_appends (mk_datetime 2026 11 3 12 0 0 0)
                "Buy milk" "home" "high" "2026-11-04" ""
                (mk_world [mk_task "Pay rent" "home" "Low" "01-12-2026" true None]
                   NoFile 0 []))
      as (_ & H & _).
    apply H; [right; right; reflexivity | reflexivity].
  - destruct (add_task_reports_and_appends (mk_datetime 2026 11 3 12 0 0 0)
                "Buy milk" "home" "high" "02-11-2026" ""
                (mk_world [mk_task "Pay rent" "home" "Low" "01-12-2026" true None]
                   NoFile 0 []))
      as (_ & _ & H & _).
    apply (H (or_intror (or_intror eq_refl)) (mk_datetime 2026 11 2 0 0 0 0));
      reflexivity.
Defined.

(** *** The first-match loop *)

Lemma split_first_spec (p : task -> bool) (l pre post : list task) (t : task) :
  split_first p l = Some (pre, t, post) ->
  l = pre ++ t :: post /\ p t = true /\ Forall (fun x => p x = false) pre.
Proof.
  revert pre; induction l as [ | x l IH]; intros pre H; simpl in H; [discriminate | ].
  destruct (p x) eqn:Px.
  - injection H as <- <- <-. auto.
  - destruct (split_first p l) as [[[pre' x'] post'] | ]; [ | discriminate].
    injection H as <- <- <-.
    destruct (IH pre' eq_refl) as (E & Pt & F).
    subst l. auto.
Qed.

Lemma split_first_app (p : task -> bool) (pre post : list task) (t : task) :
  Forall (fun x => p x = false) pre -> p t = true ->
  split_first p (pre ++ t :: post) = Some (pre, t, post).
Proof.
  intros F Pt; induction F as [ | x pre Px F IH]; simpl.
  - now rewrite Pt.
  - now rewrite Px, IH.
Qed.

Lemma split_first_none (p : task -> bool) (l : list task) :
  split_first p l = None -> Forall (fun x => p x = false) l.
Proof.
  induction l as [ | x l IH]; simpl; [constructor | ].
  destruct (p x) eqn:Px; [discriminate | ].
  destruct (split_first p l) as [[[pre t] post] | ]; [discriminate | ].
  intros _. constructor; auto.
Qed.

Lemma split_first_some (p : task -> bool) (l : list task) :
  (exists t, In t l /\ p t = true) ->
  exists pre t post, split_first p l = Some (pre, t, post).
Proof.
  intros (t & Hin & Pt).
  destruct (split_first p l) as [[[pre x] post] | ] eqn:E; [eauto | ].
  apply split_first_none in E. rewrite Forall_forall in E.
  specialize (E t Hin). congruence.
Qed.

Lemma title_matches_iff (key : string) (t : task) :
  title_matches key t = true <-> lower (title t) = lower key.
Proof. unfold title_matches. apply String.eqb_eq. Qed.

Lemma title_matches_set_completed (key : string) (t : task) (b : bool) :
  title_matches key (set_completed t b) = title_matches key t.
Proof. reflexivity. Qed.

(** *** [mark_task_complete] *)

Lemma set_completed_idem (t : task) (b : bool) :
  set_completed (set_completed t b) b = set_completed t b.
Proof. reflexivity. Qed.

Lemma mark_task_complete_run (ti : string) (w : world) :
  exec (mark_task_complete ti) w =
    match split_first (title_matches (strip ti)) (tasks w) with
    | Some (pre, t, post) =>
        let ts := pre ++ set_completed t true :: post in
        mk_world ts (File (JsonTasks ts)) (S (writes w)) (stdout w ++ [MsgMarked (strip ti)])
    | None => printed w [MsgNotFound]
    end.
Proof.
  unfold exec, mark_task_complete, mbind, get_tasks; simpl.
  destruct (split_first (title_matches (strip ti)) (tasks w)) as [[[pre t] post] | ];
    reflexivity.
Qed.

(** C9: when some task's title equals the title typed, case aside,
    [mark_task_complete] reports success and replaces the first such
    task [t] of the collection by [t] with [completed = True], the other
    tasks staying in place.  Applied a second time to the same title it
    reports success again: the task found is that same completed task,
    its [completed] field is still true, and the collection and the file
    after the second application are those after the first. *)
Theorem mark_task_complete_idempotent (ti : string) (w : world) :
  (exists t, In t (tasks w) /\ lower (title t) = lower (strip ti)) ->
  let w1 := exec (mark_task_complete ti) w in
  let w2 := exec (mark_task_complete ti) w1 in
  exists pre t post,
    tasks w = pre ++ t :: post /\
    Forall (fun x => lower (title x) <> lower (strip ti)) pre /\
    lower (title t) = lower (strip ti) /\
    lookup (strip ti) (tasks w) = Some t /\
    let t1 := mk_task (title t) (category t) (priority t) (due_date t) true (comments t) in
    committed w w1 (pre ++ t1 :: post) [MsgMarked (strip ti)] /\
    committed w1 w2 (pre ++ t1 :: post) [MsgMarked (strip ti)] /\
    lookup (strip ti) (tasks w1) = Some t1 /\
    lookup (strip ti) (tasks w2) = Some t1 /\
    completed t1 = true /\
    tasks w2 = tasks w1 /\
    disk w2 = disk w1.
Proof.
  intros (t0 & Hin & Hm). cbv zeta.
  destruct (split_first_some (title_matches (strip ti)) (tasks w))
    as (pre & t & post & E).
  { exists t0. split; [assumption | now apply title_matches_iff]. }
  destruct (split_first_spec _ _ _ _ _ E) as (El & Pt & F).
  assert (E1 : split_first (title_matches (strip ti))
                 (pre ++ set_completed t true :: post)
               = Some (pre, set_completed t true, post)).
  { apply split_first_app; [assumption | now rewrite title_matches_set_completed]. }
  exists pre, t, post.
  rewrite (mark_task_complete_run ti (exec _ w)).
  rewrite (mark_task_complete_run ti w), E.
  cbv zeta. cbn [tasks stdout disk writes]. rewrite E1.
  cbn [tasks stdout disk writes]. rewrite set_completed_idem.
  unfold lookup. rewrite E, E1.
  split; [exact El | ].
  split.
  { eapply Forall_impl; [ | exact F]. simpl. intros x Hx Hc.
    apply title_matches_iff in Hc. congruence. }
  split; [now apply title_matches_iff | ].
  repeat split.
Qed.

Lemma mark_task_complete_idempotent_witness :
  let a := mk_task "Pay rent" "home" "Low" "01-12-2026" false (Some "landlord") in
  let b := mk_task "Buy milk" "home" "High" "04-11-2026" false (Some "2 l") in
  let c := mk_task "buy MILK" "shop" "Low" "05-11-2026" false None in
  let w := mk_world [a; b; c] (File (JsonTasks [a; b; c])) 3 [] in
  let w1 := exec (mark_task_complete " buy MILK ") w in
  let w2 := exec (mark_task_complete " buy MILK ") w1 in
  exists pre t post,
    tasks w = pre ++ t :: post /\
    Forall (fun x => lower (title x) <> lower (strip " buy MILK ")) pre /\
    lower (title t) = lower (strip " buy MILK ") /\
    lookup (strip " buy MILK ") (tasks w) = Some t /\
    let t1 := mk_task (title t) (category t) (priority t) (due_date t) true (comments t) in
    committed w w1 (pre ++ t1 :: post) [MsgMarked (strip " buy MILK ")] /\
    committed w1 w2 (pre ++ t1 :: post) [MsgMarked (strip " buy MILK ")] /\
    lookup (strip " buy MILK ") (tasks w1) = Some t1 /\
    lookup (strip " buy MILK ") (tasks w2) = Some t1 /\
    completed t1 = true /\
    tasks w2 = tasks w1 /\
    disk w2 = disk w1.
Proof.
  cbv zeta.
  refine (mark_task_complete_idempotent " buy MILK "
            (mk_world [mk_task "Pay rent" "home" "Low" "01-12-2026" false (Some "landlord");
                       mk_task "Buy milk" "home" "High" "04-11-2026" false (Some "2 l");
                       mk_task "buy MILK" "shop" "Low" "05-11-2026" false None]
               (File (JsonTasks
                        [mk_task "Pay rent" "home" "Low" "01-12-2026" false (Some "landlord");
                         mk_task "Buy milk" "home" "High" "04-11-2026" false (Some "2 l");
                         mk_task "buy MILK" "shop" "Low" "05-11-2026" false None]))
               3 [])
            _).
  eexists. split; [right; left; reflexivity | reflexivity].
Defined.

(** C10: when some task's title equals the title typed, case aside,
    [mark_task_complete] replaces the first such task by a task with
    the same title, category, priority, due date and comments and
    [completed = True]; the tasks before and after it, and so the length
    and the order of the collection, are unchanged. *)
Theorem mark_task_complete_frame (ti : string) (w : world) :
  (exists t, In t (tasks w) /\ lower (title t) = lower (strip ti)) ->
  exists pre t post t',
    tasks w = pre ++ t :: post /\
    Forall (fun x => lower (title x) <> lower (strip ti)) pre /\
    lower (title t) = lower (strip ti) /\
    tasks (exec (mark_task_complete ti) w) = pre ++ t' :: post /\
    title t' = title t /\ category t' = category t /\ priority t' = priority t /\
    due_date t' = due_date t /\ comments t' = comments t /\ completed t' = true /\
    List.length (tasks (exec (mark_task_complete ti) w)) = List.length (tasks w).
Proof.
  intros (t0 & Hin & Hm).
  destruct (split_first_some (title_matches (strip ti)) (tasks w))
    as (pre & t & post & E).
  { exists t0. split; [assumption | now apply title_matches_iff]. }
  destruct (split_first_spec _ _ _ _ _ E) as (El & Pt & F).
  exists pre, t, post, (set_completed t true).
  rewrite mark_task_complete_run, E. cbv zeta. cbn [tasks].
  split; [exact El | ].
  split.
  { eapply Forall_impl; [ | exact F]. simpl. intros x Hx Hc.
    apply title_matches_iff in Hc. congruence. }
  split; [now apply title_matches_iff | ].
  repeat split.
  rewrite El, !length_app. reflexivity.
Qed.

Lemma mark_task_complete_frame_witness :
  let a := mk_task "Pay rent" "home" "Low" "01-12-2026" false (Some "landlord") in
  let b := mk_task "Buy milk" "home" "High" "04-11-2026" false None in
  let w := mk_world [a; b] (File (JsonTasks [a; b])) 2 [] in
  exists pre t post t',
    tasks w = pre ++ t :: post /\
    Forall (fun x => lower (title x) <> lower (strip "BUY milk")) pre /\
    lower (title t) = lower (strip "BUY milk") /\
    tasks (exec (mark_task_complete "BUY milk") w) = pre ++ t' :: post /\
    title t' = title t /\ category t' = category t /\ priority t' = priority t /\
    due_date t' = due_date t /\ comments t' = comments t /\ completed t' = true /\
    List.length (tasks (exec (mark_task_complete "BUY milk") w)) = List.length (tasks w).
Proof.
  cbv zeta.
  apply (mark_task_complete_frame "BUY milk").
  eexists. split; [right; left; reflexivity | reflexivity].
Defined.

(** *** [remove_completed_tasks] *)

Lemma filter_pending_length (l : list task) :
  List.length l = (List.length (filter pending l) + List.length (filter completed l))%nat.
Proof.
  induction l as [ | t l IH]; [reflexivity | ].
  unfold pending in *. simpl. destruct (completed t); simpl; lia.
Qed.

Lemma filter_completed_nil_iff (l : list task) :
  filter completed l = [] <-> existsb completed l = false.
Proof.
  induction l as [ | t l IH]; simpl; [tauto | ].
  destruct (completed t); simpl; [split; discriminate | exact IH].
Qed.

Lemma remove_completed_tasks_run (w : world) :
  exec remove_completed_tasks w =
    let ts := filter pending (tasks w) in
    if existsb completed (tasks w)
    then mk_world ts (File (JsonTasks ts)) (S (writes w)) (stdout w ++ [MsgCompletedRemoved])
    else mk_world ts (disk w) (writes w) (stdout w ++ [MsgNoCompleted]).
Proof.
  unfold exec, remove_completed_tasks, mbind, get_tasks, set_tasks; simpl.
  fold pending.
  pose proof (filter_pending_length (tasks w)) as L.
  pose proof (filter_completed_nil_iff (tasks w)) as N.
  destruct (existsb completed (tasks w)).
  - destruct (Nat.ltb_spec (List.length (filter pending (tasks w))) (List.length (tasks w)))
      as [_ | Ge]; [reflexivity | ].
    destruct (filter completed (tasks w)) eqn:E; [ | simpl in L; lia].
    destruct N as [N _]. discriminate (N eq_refl).
  - destruct N as [_ N]. rewrite (N eq_refl) in L. simpl in L.
    destruct (Nat.ltb_spec (List.length (filter pending (tasks w))) (List.length (tasks w)))
      as [Lt | _]; [lia | reflexivity].
Qed.

Lemma filter_pending_idem (l : list task) :
  filter pending (filter pending l) = filter pending l.
Proof.
  induction l as [ | t l IH]; [reflexivity | ].
  simpl. destruct (pending t) eqn:P; simpl; rewrite ?P, IH; reflexivity.
Qed.

Lemma existsb_completed_pending (l : list task) :
  existsb completed (filter pending l) = false.
Proof.
  induction l as [ | t l IH]; [reflexivity | ].
  unfold pending in *. simpl. destruct (completed t) eqn:C; simpl; rewrite ?C; exact IH.
Qed.

(** C8, as stated, fails on the count: [remove_completed_tasks] returns
    [None] and prints the same line whether it removed one task or two,
    so the number removed is no part of its result. *)
Lemma remove_completed_tasks_reports_no_count :
  let a := mk_task "Pay rent" "home" "Low" "01-12-2026" true None in
  let b := mk_task "Buy milk" "home" "High" "04-11-2026" true None in
  let w1 := mk_world [a] (File (JsonTasks [a])) 1 [] in
  let w2 := mk_world [a; b] (File (JsonTasks [a; b])) 2 [] in
  fst (remove_completed_tasks w1) = fst (remove_completed_tasks w2) /\
  stdout (exec remove_completed_tasks w1) = [MsgCompletedRemoved] /\
  stdout (exec remove_completed_tasks w2) = [MsgCompletedRemoved] /\
  (List.length (tasks w1) - List.length (tasks (exec remove_completed_tasks w1)) = 1)%nat /\
  (List.length (tasks w2) - List.length (tasks (exec remove_completed_tasks w2)) = 2)%nat.
Proof. cbv zeta. repeat split. Qed.

(** C8 (amended): [remove_completed_tasks] keeps exactly the tasks with
    [completed = False], in their order; the collection shrinks by the
    number of completed tasks; it writes the file and reports the removal
    when at least one task was completed, and otherwise writes nothing
    and reports that there was nothing to remove.  It returns nothing.
    Called again at once, it changes nothing, writes nothing and reports
    that there was nothing to remove. *)
Theorem remove_completed_tasks_spec (w : world) :
  let w' := exec remove_completed_tasks w in
  let w'' := exec remove_completed_tasks w' in
  tasks w' = filter (fun t => negb (completed t)) (tasks w) /\
  Forall (fun t => completed t = false) (tasks w') /\
  (forall t, In t (tasks w') <-> In t (tasks w) /\ completed t = false) /\
  List.length (tasks w) =
    (List.length (tasks w') + List.length (filter completed (tasks w)))%nat /\
  (if existsb completed (tasks w)
   then committed w w' (tasks w') [MsgCompletedRemoved]
   else disk w' = disk w /\ writes w' = writes w /\
        stdout w' = stdout w ++ [MsgNoCompleted]) /\
  refused w' w'' MsgNoCompleted.
Proof.
  cbv zeta.
  rewrite (remove_completed_tasks_run (exec _ w)).
  rewrite (remove_completed_tasks_run w). cbv zeta.
  assert (T : tasks (if existsb completed (tasks w)
                     then mk_world (filter pending (tasks w))
                            (File (JsonTasks (filter pending (tasks w))))
                            (S (writes w)) (stdout w ++ [MsgCompletedRemoved])
                     else mk_world (filter pending (tasks w)) (disk w) (writes w)
                            (stdout w ++ [MsgNoCompleted]))
              = filter pending (tasks w)).
  { destruct (existsb completed (tasks w)); reflexivity. }
  rewrite T, existsb_completed_pending, filter_pending_idem.
  split; [reflexivity | ].
  split.
  { apply Forall_forall. intros t Hin. apply filter_In in Hin.
    unfold pending in Hin. destruct Hin as [_ Hc]. now destruct (completed t). }
  split.
  { intros t. unfold pending. rewrite filter_In. now destruct (completed t). }
  split; [apply filter_pending_length | ].
  destruct (existsb completed (tasks w)); repeat split.
Qed.

(** *** [edit_task] *)

Lemma edit_task_run (today : datetime) (ti a b c d e : string) (w : world) :
  exec (V5.edit_task today ti a b c d e) w =
    match split_first (title_matches (strip ti)) (tasks w) with
    | Some (pre, t, post) =>
        match edited today a b c d e t with
        | inl m => printed w [MsgLeaveBlank; m]
        | inr t' =>
            let ts := pre ++ t' :: post in
            mk_world ts (File (JsonTasks ts)) (S (writes w))
                     (stdout w ++ [MsgLeaveBlank; comments_line t; MsgUpdated (title t')])
        end
    | None => printed w [MsgNotFound]
    end.
Proof.
  unfold exec, V5.edit_task, mbind, get_tasks. cbn [fst snd].
  destruct (split_first (title_matches (strip ti)) (tasks w)) as [[[pre t] post] | ];
    [ | reflexivity].
  unfold print at 1. cbn [fst snd]. unfold edited, comments_line.
  set (np := por (capitalize (strip c)) (priority t)).
  set (nd := por (strip d) (due_date t)).
  destruct (truthy np); cbn [andb].
  - rewrite validate_priority_run.
    destruct (priority_ok np); cbn [negb];
      [ | unfold printed; simpl; now rewrite <- app_assoc].
    destruct (truthy nd).
    + rewrite validate_due_date_run.
      destruct (strptime V5.fmt nd) as [dt | ];
        [ | unfold printed; simpl; now rewrite <- app_assoc].
      destruct (dt_ltb dt today); cbn [negb];
        [unfold printed; simpl; now rewrite <- app_assoc | ].
      destruct (comments t) as [[ | ? ?] | ]; simpl; now rewrite <- !app_assoc.
    + unfold mret at 1. cbn [negb].
      destruct (comments t) as [[ | ? ?] | ]; simpl; now rewrite <- !app_assoc.
  - unfold mret at 1. cbn [negb].
    destruct (truthy nd).
    + rewrite validate_due_date_run.
      destruct (strptime V5.fmt nd) as [dt | ];
        [ | unfold printed; simpl; now rewrite <- app_assoc].
      destruct (dt_ltb dt today); cbn [negb];
        [unfold printed; simpl; now rewrite <- app_assoc | ].
      destruct (comments t) as [[ | ? ?] | ]; simpl; now rewrite <- !app_assoc.
    + unfold mret at 1. cbn [negb].
      destruct (comments t) as [[ | ? ?] | ]; simpl; now rewrite <- !app_assoc.
Qed.

Lemma edited_title (today : datetime) (a b c d e : string) (t t' : task) :
  edited today a b c d e t = inr t' -> title t' = por (strip a) (title t).
Proof.
  unfold edited.
  destruct (truthy (por (capitalize (strip c)) (priority t))
            && negb (priority_ok (por (capitalize (strip c)) (priority t))));
    [discriminate | ].
  destruct (truthy (por (strip d) (due_date t))).
  - destruct (strptime V5.fmt (por (strip d) (due_date t))) as [dt | ]; [ | discriminate].
    destruct (dt_ltb dt today); [discriminate | ].
    now intros [= <-].
  - now intros [= <-].
Qed.

Lemma task_eta (t : task) :
  mk_task (title t) (category t) (priority t) (due_date t) (completed t) (comments t) = t.
Proof. now destruct t. Qed.

(** Every answer left blank: the update [edit_task] prepares is the
    task itself. *)
Lemma edited_blank (today : datetime) (a b c d e : string) (t : task) :
  blank a -> blank b -> blank c -> blank d -> blank e ->
  (exists m, edited today a b c d e t = inl m) \/ edited today a b c d e t = inr t.
Proof.
  unfold blank, edited. intros -> -> -> -> ->.
  cbn [capitalize por truthy]. rewrite task_eta.
  destruct (truthy (priority t) && negb (priority_ok (priority t))); [eauto | ].
  destruct (truthy (due_date t)); [ | now right].
  destruct (strptime V5.fmt (due_date t)) as [dt | ]; [ | eauto].
  destruct (dt_ltb dt today); eauto.
Qed.

(** Every answer left blank: whatever [edit_task] decides, the
    collection it leaves is the collection it found, so every field of
    the task and every other task are as before. *)
Lemma edit_task_blank_keeps_tasks (today : datetime) (ti a b c d e : string) (w : world) :
  blank a -> blank b -> blank c -> blank d -> blank e ->
  tasks (exec (V5.edit_task today ti a b c d e) w) = tasks w.
Proof.
  intros Ha Hb Hc Hd He. rewrite edit_task_run.
  destruct (split_first (title_matches (strip ti)) (tasks w)) as [[[pre t] post] | ] eqn:E;
    [ | reflexivity].
  apply split_first_spec in E. destruct E as (El & _ & _).
  destruct (edited_blank today a b c d e t Ha Hb Hc Hd He) as [[m ->] | ->];
    [reflexivity | ].
  cbn. now rewrite El.
Qed.

(** The stored due date is validated again although it was left blank:
    once midnight of the due day is behind the clock, the edit is
    cancelled with the "past due date" warning and nothing is written. *)
Lemma edit_task_blank_revalidates (today dt : datetime) (ti : string) (t : task) (w : world) :
  lookup (strip ti) (tasks w) = Some t ->
  priority_ok (priority t) = true ->
  strptime V5.fmt (due_date t) = Some dt ->
  dt_ltb dt today = true ->
  exec (V5.edit_task today ti "" "" "" "" "") w = printed w [MsgLeaveBlank; MsgPastDueDate].
Proof.
  unfold lookup. intros L P S D. rewrite edit_task_run.
  destruct (split_first (title_matches (strip ti)) (tasks w)) as [[[pre x] post] | ];
    [ | discriminate].
  injection L as ->.
  unfold edited. cbn [strip lstrip rstrip capitalize por truthy].
  rewrite P, andb_false_r.
  assert (Td : truthy (due_date t) = true).
  { destruct (due_date t); [discriminate S | reflexivity]. }
  now rewrite Td, S, D.
Qed.

(** C3: a task added on 3 November 2026 with due date 4 November is
    edited on 5 November with every answer left blank.  The edit is
    cancelled: [edit_task] validates the kept due date again, prints the
    "past due date" warning and returns before [save_tasks].  The
    [edit_task] of versions 2 and 3 does the same. *)
Theorem edit_task_blank_cancelled_when_overdue :
  let w0 := mk_world [] NoFile 0 [] in
  let w1 := exec (V5.add_task (mk_datetime 2026 11 3 12 0 0 0)
                    "Buy milk" "home" "high" "04-11-2026" "") w0 in
  let w2 := exec (V5.edit_task (mk_datetime 2026 11 5 9 0 0 0)
                    "Buy milk" "" "" "" "" "") w1 in
  let t2 := mk_task "Buy milk" "home" "High" "2026-11-04" false None in
  let v1 := mk_world [t2] (File (JsonTasks [t2])) 1 [] in
  let v2 := exec (V2.edit_task (mk_datetime 2026 11 5 9 0 0 0)
                    "Buy milk" "" "" "" "") v1 in
  tasks w1 = [mk_task "Buy milk" "home" "High" "04-11-2026" false None] /\
  stdout w1 = [MsgAdded "Buy milk"] /\
  stdout w2 = [MsgAdded "Buy milk"; MsgLeaveBlank; MsgPastDueDate] /\
  writes w2 = writes w1 /\
  stdout v2 = [MsgLeaveBlank; MsgPastDueDate] /\
  writes v2 = writes v1.
Proof. cbv zeta. repeat split. Qed.

(** ** Sequences of operations (version 5) *)

Lemma por_nonempty (a b : string) : b <> "" -> por a b <> "".
Proof. unfold por. destruct a; simpl; [auto | discriminate]. Qed.

Lemma list_remove_Forall (P : task -> Prop) (x : task) (l : list task) :
  Forall P l -> Forall P (list_remove x l).
Proof.
  induction 1 as [ | t l Pt F IH]; simpl; [constructor | ].
  destruct (task_eqb t x); [assumption | now constructor].
Qed.


(** Every operation keeps the titles non-empty, [add_task] provided the
    title typed is not blank. *)
Lemma step_keeps_titles (o : op) (w : world) :
  titled o -> Forall has_title (tasks w) -> Forall has_title (tasks (exec (step o) w)).
Proof.
  intros Ho Hw. destruct o as [today ti ci pi di mi | today ti a b c d e | ti | ti | | cf];
    cbn [step].
  - rewrite add_task_run.
    destruct (priority_ok (capitalize (strip pi))); [ | exact Hw].
    destruct (strptime V5.fmt (strip di)) as [dt | ]; [ | exact Hw].
    destruct (dt_ltb dt today); [exact Hw | ].
    cbn [tasks]. apply Forall_app. split; [exact Hw | ].
    constructor; [exact Ho | constructor].
  - rewrite edit_task_run.
    destruct (split_first (title_matches (strip ti)) (tasks w)) as [[[pre t] post] | ] eqn:E;
      [ | exact Hw].
    apply split_first_spec in E. destruct E as (El & _ & _).
    destruct (edited today a b c d e t) as [m | t'] eqn:Ed; [exact Hw | ].
    cbn [tasks]. rewrite El in Hw.
    apply Forall_app in Hw. destruct Hw as [Hpre Hrest].
    inversion Hrest as [ | ? ? Ht Hpost]; subst.
    apply Forall_app. split; [exact Hpre | ].
    constructor; [ | exact Hpost].
    unfold has_title. rewrite (edited_title _ _ _ _ _ _ _ _ Ed).
    now apply por_nonempty.
  - unfold exec, remove_task, mbind, get_tasks. cbn [fst snd].
    destruct (split_first (title_matches (strip ti)) (tasks w)) as [[[pre t] post] | ];
      [ | exact Hw].
    cbn. now apply list_remove_Forall.
  - rewrite mark_task_complete_run.
    destruct (split_first (title_matches (strip ti)) (tasks w)) as [[[pre t] post] | ] eqn:E;
      [ | exact Hw].
    apply split_first_spec in E. destruct E as (El & _ & _).
    cbn [tasks]. rewrite El in Hw.
    apply Forall_app in Hw. destruct Hw as [Hpre Hrest].
    inversion Hrest as [ | ? ? Ht Hpost]; subst.
    apply Forall_app. split; [exact Hpre | ].
    constructor; [exact Ht | exact Hpost].
  - rewrite remove_completed_tasks_run. cbv zeta.
    assert (F : Forall has_title (filter pending (tasks w))).
    { apply Forall_forall. intros t Hin. apply filter_In in Hin.
      rewrite Forall_forall in Hw. now apply Hw. }
    destruct (existsb completed (tasks w)); exact F.
  - unfold exec, V5.remove_all_tasks.
    destruct (String.eqb (lower (strip cf)) "yes"); [constructor | exact Hw].
Qed.

Lemma run_keeps_titles (ops : list op) (w : world) :
  Forall titled ops -> Forall has_title (tasks w) -> Forall has_title (tasks (run ops w)).
Proof.
  revert w; induction ops as [ | o ops IH]; intros w Hops Hw; [exact Hw | ].
  inversion Hops; subst. simpl. apply IH; [assumption | ].
  now apply step_keeps_titles.
Qed.

(** C6, as stated, fails: [add_task] stores the title as typed, blank
    or not.  Pressing Enter at the title prompt, with a valid priority
    and due date, adds a task whose title is the empty string. *)
Lemma blank_title_is_added :
  let w := run [AddTask (mk_datetime 2026 11 3 12 0 0 0) "" "home" "high" "04-11-2026" ""]
               (start NoFile) in
  tasks w = [mk_task "" "home" "High" "04-11-2026" false None] /\
  ~ Forall has_title (tasks w).
Proof.
  cbv zeta. split; [reflexivity | ].
  intros H. inversion H as [ | ? ? Ht _]; subst. now apply Ht.
Qed.

(** C6 (amended): in every state reached from the empty collection by
    add, edit, remove, mark-complete, remove-completed and remove-all
    operations in which every add was given a title that is not blank,
    every task's title is non-empty.  No operation other than an add
    with a blank title introduces an empty title. *)
Theorem titles_nonempty_when_adds_titled (ops : list op) (d : store) :
  Forall titled ops -> Forall has_title (tasks (run ops (start d))).
Proof.
  intros H. apply run_keeps_titles; [exact H | constructor].
Qed.

Lemma titles_nonempty_when_adds_titled_witness :
  Forall has_title
    (tasks (run [AddTask (mk_datetime 2026 11 3 12 0 0 0) " Buy milk " "home" "high"
                     "04-11-2026" "";
                 AddTask (mk_datetime 2026 11 3 12 1 0 0) "Pay rent" "home" "low"
                     "01-12-2026" "landlord";
                 EditTask (mk_datetime 2026 11 3 12 5 0 0) "buy milk" "" "shop" "" "" "2 l";
                 MarkTaskComplete "BUY MILK";
                 RemoveCompletedTasks]
                (start NoFile))).
Proof.
  apply (titles_nonempty_when_adds_titled
           [AddTask (mk_datetime 2026 11 3 12 0 0 0) " Buy milk " "home" "high"
                "04-11-2026" "";
            AddTask (mk_datetime 2026 11 3 12 1 0 0) "Pay rent" "home" "low"
                "01-12-2026" "landlord";
            EditTask (mk_datetime 2026 11 3 12 5 0 0) "buy milk" "" "shop" "" "" "2 l";
            MarkTaskComplete "BUY MILK";
            RemoveCompletedTasks]
           NoFile).
  repeat constructor; discriminate.
Defined.


(** * Further properties *)

(** ** The file follows the collection *)

Lemma remove_task_run (ti : string) (w : world) :
  exec (remove_task ti) w =
    match split_first (title_matches (strip ti)) (tasks w) with
    | Some (_, t, _) =>
        let ts := list_remove t (tasks w) in
        mk_world ts (File (JsonTasks ts)) (S (writes w)) (stdout w ++ [MsgRemoved (strip ti)])
    | None => printed w [MsgNotFound]
    end.
Proof.
  unfold exec, remove_task, mbind, get_tasks; simpl.
  destruct (split_first (title_matches (strip ti)) (tasks w)) as [[[pre t] post] | ];
    reflexivity.
Qed.

Lemma remove_all_tasks_run (cf : string) (w : world) :
  exec (V5.remove_all_tasks cf) w =
    if String.eqb (lower (strip cf)) "yes"
    then mk_world [] (File (JsonTasks [])) (S (writes w)) (stdout w ++ [MsgAllRemoved])
    else printed w [MsgRemovalCanceled].
Proof.
  unfold exec, V5.remove_all_tasks.
  destruct (String.eqb (lower (strip cf)) "yes"); reflexivity.
Qed.

Lemma filter_pending_all (l : list task) :
  existsb completed l = false -> filter pending l = l.
Proof.
  induction l as [ | t l IH]; [reflexivity | ].
  unfold pending in *. simpl. destruct (completed t); simpl; [discriminate | ].
  intros H. now rewrite IH.
Qed.

Lemma in_sync_printed (w : world) (ms : list message) :
  in_sync w -> in_sync (printed w ms).
Proof. intros H; exact H. Qed.

Lemma step_keeps_sync (o : op) (w : world) :
  in_sync w -> in_sync (exec (step o) w).
Proof.
  intros H. destruct o as [today ti ci pi di mi | today ti a b c d e | ti | ti | | cf];
    cbn [step].
  - rewrite add_task_run.
    destruct (priority_ok (capitalize (strip pi))); [ | exact H].
    destruct (strptime V5.fmt (strip di)) as [dt | ]; [ | exact H].
    destruct (dt_ltb dt today); [exact H | reflexivity].
  - rewrite edit_task_run.
    destruct (split_first (title_matches (strip ti)) (tasks w)) as [[[pre t] post] | ];
      [ | exact H].
    destruct (edited today a b c d e t); [exact H | reflexivity].
  - rewrite remove_task_run.
    destruct (split_first (title_matches (strip ti)) (tasks w)) as [[[pre t] post] | ];
      [reflexivity | exact H].
  - rewrite mark_task_complete_run.
    destruct (split_first (title_matches (strip ti)) (tasks w)) as [[[pre t] post] | ];
      [reflexivity | exact H].
  - rewrite remove_completed_tasks_run. cbv zeta.
    destruct (existsb completed (tasks w)) eqn:E; [reflexivity | ].
    unfold in_sync in *. cbn [disk tasks].
    now rewrite (filter_pending_all _ E).
  - rewrite remove_all_tasks_run.
    destruct (String.eqb (lower (strip cf)) "yes"); [reflexivity | exact H].
Qed.

Lemma boot_in_sync (d : store) (w : world) : boot d = Ok w -> in_sync w.
Proof.
  unfold boot, in_sync. destruct (load_tasks d) as [ts | e] eqn:L; simpl; [ | discriminate].
  intros [= <-]. exact L.
Qed.

Lemma run_keeps_sync (ops : list op) (w : world) :
  in_sync w -> in_sync (run ops w).
Proof.
  revert w. induction ops as [ | o ops IH]; intros w B; [exact B | ].
  simpl. apply IH. now apply step_keeps_sync.
Qed.

(** One operation: nothing touched, or one write of the collection it
    leaves. *)
Lemma step_writes_through (o : op) (w : world) :
  (tasks (exec (step o) w) = tasks w /\ disk (exec (step o) w) = disk w /\
   writes (exec (step o) w) = writes w) \/
  (disk (exec (step o) w) = File (JsonTasks (tasks (exec (step o) w))) /\
   writes (exec (step o) w) = S (writes w)).
Proof.
  destruct o as [today ti ci pi di mi | today ti a b c d e | ti | ti | | cf];
    cbn [step].
  - rewrite add_task_run.
    destruct (priority_ok (capitalize (strip pi))); [ | left; repeat split].
    destruct (strptime V5.fmt (strip di)) as [dt | ]; [ | left; repeat split].
    destruct (dt_ltb dt today); [left | right]; repeat split.
  - rewrite edit_task_run.
    destruct (split_first (title_matches (strip ti)) (tasks w)) as [[[pre t] post] | ];
      [ | left; repeat split].
    destruct (edited today a b c d e t); [left | right]; repeat split.
  - rewrite remove_task_run.
    destruct (split_first (title_matches (strip ti)) (tasks w)) as [[[pre t] post] | ];
      [right | left]; repeat split.
  - rewrite mark_task_complete_run.
    destruct (split_first (title_matches (strip ti)) (tasks w)) as [[[pre t] post] | ];
      [right | left]; repeat split.
  - rewrite remove_completed_tasks_run. cbv zeta.
    destruct (existsb completed (tasks w)) eqn:E; [right; repeat split | left].
    cbn [tasks disk writes]. rewrite (filter_pending_all _ E). repeat split.
  - rewrite remove_all_tasks_run.
    destruct (String.eqb (lower (strip cf)) "yes"); [right | left]; repeat split.
Qed.

(** X1: the file follows the collection.  After any sequence of menu
    operations, either nothing has been written and the collection and
    the file are exactly as at the start, or the file holds exactly the
    collection now in memory, which [load_tasks] would return; and the
    operations have written at most once each.  For a single operation:
    it either touches neither the collection nor the file, or writes
    once, the collection it leaves. *)
Theorem session_writes_through (ops : list op) (w : world) :
  let w' := run ops w in
  (tasks w' = tasks w /\ disk w' = disk w /\ writes w' = writes w) \/
  (disk w' = File (JsonTasks (tasks w')) /\
   load_tasks (disk w') = Ok (tasks w') /\
   (writes w < writes w' <= writes w + List.length ops)%nat).
Proof.
  cbv zeta. revert w. induction ops as [ | o ops IH]; intros w.
  - left. repeat split.
  - cbn [run List.length].
    destruct (IH (exec (step o) w)) as [(T & D & W) | (D & L & W)];
      destruct (step_writes_through o w) as [(T1 & D1 & W1) | (D1 & W1)].
    + left. repeat split; congruence.
    + right. rewrite T, D, W, D1, W1.
      split; [reflexivity | split; [reflexivity | lia]].
    + right. split; [exact D | split; [exact L | lia]].
    + right. split; [exact D | split; [exact L | lia]].
Qed.

(** ** Title-keyed operations *)

Lemma split_first_absent (key : string) (ts : list task) :
  absent key ts -> split_first (title_matches key) ts = None.
Proof.
  induction 1 as [ | t l Ht F IH]; [reflexivity | ].
  simpl. rewrite IH.
  destruct (title_matches key t) eqn:E; [ | reflexivity].
  apply title_matches_iff in E. contradiction.
Qed.

Lemma split_first_at (key : string) (pre post : list task) (t : task) :
  absent key pre -> lower (title t) = lower key ->
  split_first (title_matches key) (pre ++ t :: post) = Some (pre, t, post).
Proof.
  intros A E. apply split_first_app.
  - eapply Forall_impl; [ | exact A]. simpl. intros x Hx.
    destruct (title_matches key x) eqn:M; [ | reflexivity].
    apply title_matches_iff in M. contradiction.
  - now apply title_matches_iff.
Qed.

Lemma list_remove_at (pre post : list task) (t : task) :
  Forall (fun x => x <> t) pre -> list_remove t (pre ++ t :: post) = pre ++ post.
Proof.
  induction 1 as [ | x pre Hx F IH]; simpl.
  - unfold task_eqb. destruct (task_eq_dec t t); [reflexivity | contradiction].
  - unfold task_eqb at 1. destruct (task_eq_dec x t); [contradiction | ].
    now rewrite IH.
Qed.

(** X2: [remove_task] removes exactly the first task whose title is the
    title typed, case aside, keeps every other task in place (later
    tasks of the same title too), writes the file and reports the
    removal. *)
Theorem remove_task_removes_first_match
    (ti : string) (w : world) (pre post : list task) (t : task) :
  tasks w = pre ++ t :: post ->
  absent (strip ti) pre ->
  lower (title t) = lower (strip ti) ->
  committed w (exec (remove_task ti) w) (pre ++ post) [MsgRemoved (strip ti)].
Proof.
  intros E A Ht. rewrite remove_task_run, E, (split_first_at _ _ _ _ A Ht).
  cbv zeta. rewrite list_remove_at; [repeat split | ].
  eapply Forall_impl; [ | exact A]. simpl. intros x Hx ->. contradiction.
Qed.

Lemma remove_task_removes_first_match_witness :
  let a := mk_task "Pay rent" "home" "Low" "01-12-2026" false None in
  let b := mk_task "Buy milk" "home" "High" "04-11-2026" false None in
  let c := mk_task "buy MILK" "shop" "Low" "05-11-2026" true None in
  let w := mk_world [a; b; c] (File (JsonTasks [a; b; c])) 3 [] in
  committed w (exec (remove_task " BUY milk ") w) [a; c] [MsgRemoved "BUY milk"].
Proof.
  cbv zeta.
  apply (remove_task_removes_first_match " BUY milk " _
           [mk_task "Pay rent" "home" "Low" "01-12-2026" false None]
           [mk_task "buy MILK" "shop" "Low" "05-11-2026" true None]
           (mk_task "Buy milk" "home" "High" "04-11-2026" false None)).
  - reflexivity.
  - repeat constructor. discriminate.
  - reflexivity.
Defined.

(** X3: when no task has the title typed, [remove_task],
    [mark_task_complete] and [edit_task] print "Task not found!" and
    leave the collection and the file as they were, without writing;
    [edit_task] asks for nothing more and [view_task_comments] prints
    the same line. *)
Theorem absent_title_is_not_found
    (today : datetime) (ti a b c d e : string) (w : world) :
  absent (strip ti) (tasks w) ->
  refused w (exec (remove_task ti) w) MsgNotFound /\
  refused w (exec (mark_task_complete ti) w) MsgNotFound /\
  refused w (exec (V5.edit_task today ti a b c d e) w) MsgNotFound /\
  refused w (exec (V2.edit_task today ti a b c d) w) MsgNotFound /\
  view_task_comments ti (tasks w) = [LineNotFound].
Proof.
  intros A. apply split_first_absent in A.
  rewrite remove_task_run, mark_task_complete_run, edit_task_run.
  unfold view_task_comments, exec, V2.edit_task, mbind, get_tasks. cbn [fst snd].
  rewrite A. repeat split.
Qed.

Lemma absent_title_is_not_found_witness :
  let a := mk_task "Pay rent" "home" "Low" "01-12-2026" false None in
  let w := mk_world [a] (File (JsonTasks [a])) 1 [] in
  let today := mk_datetime 2026 11 3 12 0 0 0 in
  refused w (exec (remove_task "Buy milk") w) MsgNotFound /\
  refused w (exec (mark_task_complete "Buy milk") w) MsgNotFound /\
  refused w (exec (V5.edit_task today "Buy milk" "x" "" "" "" "") w) MsgNotFound /\
  refused w (exec (V2.edit_task today "Buy milk" "x" "" "" "") w) MsgNotFound /\
  view_task_comments "Buy milk" (tasks w) = [LineNotFound].
Proof.
  cbv zeta.
  apply (absent_title_is_not_found (mk_datetime 2026 11 3 12 0 0 0)
           "Buy milk" "x" "" "" "" ""
           (mk_world [mk_task "Pay rent" "home" "Low" "01-12-2026" false None]
              (File (JsonTasks [mk_task "Pay rent" "home" "Low" "01-12-2026" false None]))
              1 [])).
  repeat constructor. discriminate.
Defined.

(** ** Invariants of a session (version 5) *)

Section Preservation.
Variable P : task -> Prop.
Variable Q : op -> Prop.
Hypothesis P_add :
  forall today ti ci pi di mi dt,
    priority_ok (capitalize (strip pi)) = true ->
    strptime V5.fmt (strip di) = Some dt ->
    dt_ltb dt today = false ->
    P (new_task ti ci pi di mi).
Hypothesis P_edit :
  forall today a b c d e t t', P t -> edited today a b c d e t = inr t' -> P t'.
Hypothesis P_mark :
  forall ti t, Q (MarkTaskComplete ti) -> P t -> P (set_completed t true).

Lemma step_keeps (o : op) (w : world) :
  Q o -> Forall P (tasks w) -> Forall P (tasks (exec (step o) w)).
Proof.
  intros Ho Hw. destruct o as [today ti ci pi di mi | today ti a b c d e | ti | ti | | cf];
    cbn [step].
  - rewrite add_task_run.
    destruct (priority_ok (capitalize (strip pi))) eqn:Ep; [ | exact Hw].
    destruct (strptime V5.fmt (strip di)) as [dt | ] eqn:Ed; [ | exact Hw].
    destruct (dt_ltb dt today) eqn:El; [exact Hw | ].
    cbn [tasks]. apply Forall_app. split; [exact Hw | ].
    constructor; [ | constructor]. eapply P_add; eassumption.
  - rewrite edit_task_run.
    destruct (split_first (title_matches (strip ti)) (tasks w)) as [[[pre t] post] | ] eqn:E;
      [ | exact Hw].
    apply split_first_spec in E. destruct E as (El & _ & _).
    destruct (edited today a b c d e t) as [m | t'] eqn:Ed; [exact Hw | ].
    cbn [tasks]. rewrite El in Hw.
    apply Forall_app in Hw. destruct Hw as [Hpre Hrest].
    inversion Hrest as [ | ? ? Ht Hpost]; subst.
    apply Forall_app. split; [exact Hpre | ].
    constructor; [ | exact Hpost]. eapply P_edit; eassumption.
  - rewrite remove_task_run.
    destruct (split_first (title_matches (strip ti)) (tasks w)) as [[[pre t] post] | ];
      [ | exact Hw].
    cbn. now apply list_remove_Forall.
  - rewrite mark_task_complete_run.
    destruct (split_first (title_matches (strip ti)) (tasks w)) as [[[pre t] post] | ] eqn:E;
      [ | exact Hw].
    apply split_first_spec in E. destruct E as (El & _ & _).
    cbn [tasks]. rewrite El in Hw.
    apply Forall_app in Hw. destruct Hw as [Hpre Hrest].
    inversion Hrest as [ | ? ? Ht Hpost]; subst.
    apply Forall_app. split; [exact Hpre | ].
    constructor; [ | exact Hpost]. eapply P_mark; eassumption.
  - rewrite remove_completed_tasks_run. cbv zeta.
    assert (F : Forall P (filter pending (tasks w))).
    { apply Forall_forall. intros t Hin. apply filter_In in Hin.
      rewrite Forall_forall in Hw. now apply Hw. }
    destruct (existsb completed (tasks w)); exact F.
  - rewrite remove_all_tasks_run.
    destruct (String.eqb (lower (strip cf)) "yes"); [constructor | exact Hw].
Qed.

Lemma run_keeps (ops : list op) (w : world) :
  Forall Q ops -> Forall P (tasks w) -> Forall P (tasks (run ops w)).
Proof.
  revert w; induction ops as [ | o ops IH]; intros w Hops Hw; [exact Hw | ].
  inversion Hops; subst. simpl. apply IH; [assumption | ].
  now apply step_keeps.
Qed.
End Preservation.

Lemma priority_ok_truthy (p : string) : priority_ok p = true -> truthy p = true.
Proof.
  intros H. apply priority_ok_iff in H. destruct H as [-> | [-> | ->]]; reflexivity.
Qed.

Lemma strptime_truthy (f : format) (s : string) : strptime f s <> None -> truthy s = true.
Proof.
  destruct s; [ | reflexivity]. intros H. exfalso. apply H. now destruct f.
Qed.

Lemma por_truthy (a b : string) : truthy b = true -> truthy (por a b) = true.
Proof. unfold por. destruct (truthy a) eqn:E; auto. Qed.

Lemma edited_well_formed (today : datetime) (a b c d e : string) (t t' : task) :
  well_formed t -> edited today a b c d e t = inr t' -> well_formed t'.
Proof.
  unfold well_formed, edited. intros [Hp Hd].
  rewrite (por_truthy _ _ (priority_ok_truthy _ Hp)).
  rewrite (por_truthy _ _ (strptime_truthy _ _ Hd)).
  cbn [andb].
  destruct (priority_ok (por (capitalize (strip c)) (priority t))) eqn:Ep;
    cbn [negb]; [ | discriminate].
  destruct (strptime V5.fmt (por (strip d) (due_date t))) as [dt | ] eqn:Ed;
    [ | discriminate].
  destruct (dt_ltb dt today); [discriminate | ].
  intros [= <-]. cbn [priority due_date]. split; [exact Ep | congruence].
Qed.

Lemma all_ops (ops : list op) : Forall (fun _ => True) ops.
Proof. induction ops; constructor; auto. Qed.

(** X4: validation holds for the whole session.  If every task of the
    collection has a priority among Low, Medium, High and a due date
    that parses as day-month-year, so has every task after any sequence
    of menu operations: [add_task] and [edit_task] let nothing else in. *)
Theorem session_keeps_tasks_well_formed (ops : list op) (w : world) :
  Forall well_formed (tasks w) -> Forall well_formed (tasks (run ops w)).
Proof.
  intros H. apply run_keeps with (Q := fun _ => True); [ | | | apply all_ops | exact H].
  - intros today ti ci pi di mi dt Hp Hd _. split; [exact Hp | ].
    cbn [new_task due_date]. congruence.
  - intros today a b c d e t t'. apply edited_well_formed.
  - intros _ t _ Ht. exact Ht.
Qed.

Lemma session_keeps_tasks_well_formed_witness :
  let t := mk_task "Pay rent" "home" "Low" "01-12-2026" true (Some "landlord") in
  let ops := [AddTask (mk_datetime 2026 11 3 12 0 0 0) "Buy milk" "home" "high"
                      "04-11-2026" "";
              EditTask (mk_datetime 2026 11 3 12 5 0 0) "buy milk" "" "" "medium"
                       "6-11-2026" "";
              EditTask (mk_datetime 2026 11 3 12 6 0 0) "pay rent" "" "" "soon" "" ""] in
  Forall well_formed (tasks (run ops (mk_world [t] (File (JsonTasks [t])) 1 []))).
Proof.
  cbv zeta. apply session_keeps_tasks_well_formed.
  constructor; [ | constructor]. split; [reflexivity | discriminate].
Defined.

Lemma edited_completed (today : datetime) (a b c d e : string) (t t' : task) :
  edited today a b c d e t = inr t' -> completed t' = completed t.
Proof.
  unfold edited.
  destruct (truthy (por (capitalize (strip c)) (priority t))
            && negb (priority_ok (por (capitalize (strip c)) (priority t))));
    [discriminate | ].
  destruct (truthy (por (strip d) (due_date t))).
  - destruct (strptime V5.fmt (por (strip d) (due_date t))) as [dt | ]; [ | discriminate].
    destruct (dt_ltb dt today); [discriminate | ].
    now intros [= <-].
  - now intros [= <-].
Qed.

(** X5: only [mark_task_complete] completes a task.  Starting from a
    collection of pending tasks, after any sequence of add, edit,
    remove, remove-completed and remove-all operations every task is
    still pending. *)
Theorem only_marking_completes (ops : list op) (w : world) :
  Forall not_marking ops ->
  Forall (fun t => completed t = false) (tasks w) ->
  Forall (fun t => completed t = false) (tasks (run ops w)).
Proof.
  intros Hq H. apply run_keeps with (Q := not_marking); [ | | | exact Hq | exact H].
  - reflexivity.
  - intros today a b c d e t t' Ht Ed. rewrite (edited_completed _ _ _ _ _ _ _ _ Ed).
    exact Ht.
  - intros ti t [].
Qed.

Lemma only_marking_completes_witness :
  let ops := [AddTask (mk_datetime 2026 11 3 12 0 0 0) "Buy milk" "home" "high"
                      "04-11-2026" "";
              EditTask (mk_datetime 2026 11 3 12 5 0 0) "buy milk" "Milk" "" "" "" "2 l";
              RemoveCompletedTasks] in
  Forall (fun t => completed t = false) (tasks (run ops (start NoFile))).
Proof.
  cbv zeta. apply only_marking_completes.
  - repeat constructor.
  - constructor.
Defined.

(** ** Titles as lookup keys *)

Lemma lstrip_lstripped (s : string) : lstripped (lstrip s).
Proof.
  induction s as [ | c r IH]; simpl; [exact I | ].
  destruct (is_space c) eqn:E; [exact IH | exact E].
Qed.

Lemma lstrip_id (s : string) : lstripped s -> lstrip s = s.
Proof. destruct s as [ | c r]; simpl; [reflexivity | ]. now intros ->. Qed.

Lemma rstrip_cons (c : ascii) (r : string) :
  rstrip (String c r) =
    match rstrip r with
    | EmptyString => if is_space c then EmptyString else String c EmptyString
    | String a r' => String c (String a r')
    end.
Proof. reflexivity. Qed.

Lemma rstrip_lstripped (s : string) : lstripped s -> lstripped (rstrip s).
Proof.
  destruct s as [ | c r]; [trivial | ].
  intros H. simpl in H. rewrite rstrip_cons, H.
  destruct (rstrip r); exact H.
Qed.

Lemma rstrip_idem (s : string) : rstrip (rstrip s) = rstrip s.
Proof.
  induction s as [ | c r IH]; [reflexivity | ].
  rewrite rstrip_cons. destruct (rstrip r) as [ | a r'] eqn:E.
  - destruct (is_space c) eqn:S; [reflexivity | ].
    rewrite rstrip_cons. simpl. now rewrite S.
  - rewrite rstrip_cons, IH. reflexivity.
Qed.

Lemma strip_idem (s : string) : strip (strip s) = strip s.
Proof.
  unfold strip. rewrite lstrip_id.
  - apply rstrip_idem.
  - apply rstrip_lstripped, lstrip_lstripped.
Qed.

Lemma lookup_some (key : string) (ts : list task) (t : task) :
  In t ts -> lower (title t) = lower key ->
  exists t', lookup key ts = Some t' /\ lower (title t') = lower key.
Proof.
  intros Hin Ht. unfold lookup.
  destruct (split_first_some (title_matches key) ts) as (pre & t' & post & E).
  { exists t. split; [exact Hin | now apply title_matches_iff]. }
  rewrite E. exists t'. split; [reflexivity | ].
  apply split_first_spec in E. destruct E as (_ & M & _).
  now apply title_matches_iff.
Qed.

(** X6: titles are stored without surrounding white space, so every
    task can be reached by typing its title as it is listed: if the
    titles of the collection are stripped, then after any sequence of
    menu operations the title of each task, typed at a title prompt,
    finds a task of that title (the first one, case aside). *)
Theorem every_task_answers_to_its_title (ops : list op) (w : world) (t : task) :
  Forall (fun x => strip (title x) = title x) (tasks w) ->
  In t (tasks (run ops w)) ->
  strip (title t) = title t /\
  exists t', lookup (strip (title t)) (tasks (run ops w)) = Some t' /\
             lower (title t') = lower (title t).
Proof.
  intros H Hin.
  assert (S : Forall (fun x => strip (title x) = title x) (tasks (run ops w))).
  { apply run_keeps with (Q := fun _ => True); [ | | | apply all_ops | exact H].
    - intros. cbn [new_task title]. apply strip_idem.
    - intros today a b c d e x x' Hx Ed. rewrite (edited_title _ _ _ _ _ _ _ _ Ed).
      unfold por. destruct (truthy (strip a)); [apply strip_idem | exact Hx].
    - intros _ x _ Hx. exact Hx. }
  rewrite Forall_forall in S. specialize (S t Hin).
  split; [exact S | ]. rewrite S.
  now apply lookup_some with (t := t).
Qed.

Lemma every_task_answers_to_its_title_witness :
  let ops := [AddTask (mk_datetime 2026 11 3 12 0 0 0) "  Buy milk " "home" "high"
                      "04-11-2026" "";
              AddTask (mk_datetime 2026 11 3 12 1 0 0) "buy MILK" "shop" "low"
                      "05-11-2026" ""] in
  let t := mk_task "buy MILK" "shop" "Low" "05-11-2026" false None in
  strip (title t) = title t /\
  exists t', lookup (strip (title t)) (tasks (run ops (start NoFile))) = Some t' /\
             lower (title t') = lower (title t).
Proof.
  cbv zeta.
  apply (every_task_answers_to_its_title
           [AddTask (mk_datetime 2026 11 3 12 0 0 0) "  Buy milk " "home" "high"
                    "04-11-2026" "";
            AddTask (mk_datetime 2026 11 3 12 1 0 0) "buy MILK" "shop" "low"
                    "05-11-2026" ""]
           (start NoFile)).
  - constructor.
  - right; left; reflexivity.
Defined.

Lemma add_task_reports_success (today : datetime) (ti ci pi di mi : string) (w : world) :
  stdout (exec (V5.add_task today ti ci pi di mi) w) = stdout w ++ [MsgAdded (strip ti)] ->
  tasks (exec (V5.add_task today ti ci pi di mi) w) = tasks w ++ [new_task ti ci pi di mi].
Proof.
  rewrite add_task_run.
  destruct (priority_ok (capitalize (strip pi))).
  - destruct (strptime V5.fmt (strip di)) as [dt | ].
    + destruct (dt_ltb dt today); [ | reflexivity].
      cbn [printed stdout]. intros H. apply app_inv_head in H. discriminate.
    + cbn [printed stdout]. intros H. apply app_inv_head in H. discriminate.
  - cbn [printed stdout]. intros H. apply app_inv_head in H. discriminate.
Qed.

Lemma lookup_app_found (key : string) (ts l : list task) (t : task) :
  lookup key ts = Some t -> lookup key (ts ++ l) = Some t.
Proof.
  unfold lookup.
  destruct (split_first (title_matches key) ts) as [[[pre x] post] | ] eqn:E;
    [ | discriminate].
  intros [= ->]. apply split_first_spec in E. destruct E as (-> & M & F).
  rewrite <- app_assoc. cbn [app].
  now rewrite (split_first_app _ _ (post ++ l) _ F M).
Qed.

Lemma lookup_app_absent (key : string) (ts : list task) (t : task) :
  absent key ts -> lower (title t) = lower key -> lookup key (ts ++ [t]) = Some t.
Proof.
  intros A E. unfold lookup. now rewrite (split_first_at _ _ _ _ A E).
Qed.

Lemma absent_same_key (k1 k2 : string) (ts : list task) :
  lower k1 = lower k2 -> absent k1 ts -> absent k2 ts.
Proof. unfold absent. intros <-. trivial. Qed.

(** X7: when [add_task] reports success and no task had the title, the
    new task is the one found under that title, however the title is
    cased when typed, and it carries what was submitted. *)
Theorem added_task_is_found
    (today : datetime) (ti ci pi di mi key : string) (w : world) :
  stdout (exec (V5.add_task today ti ci pi di mi) w) = stdout w ++ [MsgAdded (strip ti)] ->
  absent (strip ti) (tasks w) ->
  lower key = lower (strip ti) ->
  lookup key (tasks (exec (V5.add_task today ti ci pi di mi) w)) =
    Some (mk_task (strip ti) (strip ci) (capitalize (strip pi)) (strip di) false
            (if truthy (strip mi) then Some (strip mi) else None)).
Proof.
  intros Hs A K. rewrite (add_task_reports_success _ _ _ _ _ _ _ Hs).
  apply lookup_app_absent.
  - apply absent_same_key with (k1 := strip ti); [now symmetry | exact A].
  - cbn [new_task title]. now symmetry.
Qed.

Lemma added_task_is_found_witness :
  let a := mk_task "Pay rent" "home" "Low" "01-12-2026" false None in
  let w := mk_world [a] (File (JsonTasks [a])) 1 [] in
  lookup "BUY MILK"
    (tasks (exec (V5.add_task (mk_datetime 2026 11 3 12 0 0 0)
                    " Buy milk " "home" "hIGH" "04-11-2026" " 2 l ") w)) =
  Some (mk_task "Buy milk" "home" "High" "04-11-2026" false (Some "2 l")).
Proof.
  cbv zeta.
  apply (added_task_is_found (mk_datetime 2026 11 3 12 0 0 0)
           " Buy milk " "home" "hIGH" "04-11-2026" " 2 l " "BUY MILK").
  - reflexivity.
  - repeat constructor. discriminate.
  - reflexivity.
Defined.

(** X8: [add_task] does not look for the title in the collection.  When
    a task already answers to the title, the new task is appended all the
    same, and the title goes on finding the old one: edit, remove,
    mark-complete and view-comments cannot reach the new task while the
    old one is there. *)
Theorem duplicate_title_is_shadowed
    (today : datetime) (ti ci pi di mi key : string) (w : world) (old : task) :
  stdout (exec (V5.add_task today ti ci pi di mi) w) = stdout w ++ [MsgAdded (strip ti)] ->
  lookup key (tasks w) = Some old ->
  tasks (exec (V5.add_task today ti ci pi di mi) w) = tasks w ++ [new_task ti ci pi di mi] /\
  lookup key (tasks (exec (V5.add_task today ti ci pi di mi) w)) = Some old.
Proof.
  intros Hs L. rewrite (add_task_reports_success _ _ _ _ _ _ _ Hs).
  split; [reflexivity | now apply lookup_app_found].
Qed.

Lemma duplicate_title_is_shadowed_witness :
  let a := mk_task "Buy milk" "home" "Low" "01-12-2026" true None in
  let w := mk_world [a] (File (JsonTasks [a])) 1 [] in
  let w' := exec (V5.add_task (mk_datetime 2026 11 3 12 0 0 0)
                    "buy milk" "shop" "high" "04-11-2026" "") w in
  tasks w' = [a; mk_task "buy milk" "shop" "High" "04-11-2026" false None] /\
  lookup "buy milk" (tasks w') = Some a.
Proof.
  cbv zeta.
  apply (duplicate_title_is_shadowed (mk_datetime 2026 11 3 12 0 0 0)
           "buy milk" "shop" "high" "04-11-2026" "" "buy milk").
  - reflexivity.
  - reflexivity.
Defined.

(** ** [edit_task] (version 5) *)

Lemma edited_inr (today : datetime) (a b c d e : string) (t t' : task) :
  edited today a b c d e t = inr t' ->
  t' = mk_task (por (strip a) (title t)) (por (strip b) (category t))
               (por (capitalize (strip c)) (priority t)) (por (strip d) (due_date t))
               (completed t) (if truthy (strip e) then Some (strip e) else comments t) /\
  (truthy (priority t') = true -> priority_ok (priority t') = true) /\
  (truthy (due_date t') = true ->
   exists dt, strptime V5.fmt (due_date t') = Some dt /\ dt_ltb dt today = false).
Proof.
  unfold edited.
  set (np := por (capitalize (strip c)) (priority t)).
  set (nd := por (strip d) (due_date t)).
  destruct (truthy np) eqn:Tp; cbn [andb].
  - destruct (priority_ok np) eqn:Pp; cbn [negb]; [ | discriminate].
    destruct (truthy nd) eqn:Td.
    + destruct (strptime V5.fmt nd) as [dt | ] eqn:Sd; [ | discriminate].
      destruct (dt_ltb dt today) eqn:Ld; [discriminate | ].
      intros [= <-]. cbn [priority due_date]. repeat split; eauto.
    + intros [= <-]. cbn [priority due_date]. repeat split; auto.
      fold nd. rewrite Td. discriminate.
  - destruct (truthy nd) eqn:Td.
    + destruct (strptime V5.fmt nd) as [dt | ] eqn:Sd; [ | discriminate].
      destruct (dt_ltb dt today) eqn:Ld; [discriminate | ].
      intros [= <-]. cbn [priority due_date]. repeat split; eauto.
      fold np. rewrite Tp. discriminate.
    + intros [= <-]. cbn [priority due_date]. fold np nd. rewrite Tp, Td.
      repeat split; discriminate.
Qed.


Lemma keeps_fields_refl (t : task) : keeps_fields t t.
Proof. unfold keeps_fields. repeat split; auto. intros x y H. eauto. Qed.

Lemma Forall2_refl_keeps (l : list task) : Forall2 keeps_fields l l.
Proof. induction l; constructor; auto using keeps_fields_refl. Qed.

(** X10: [edit_task] cannot clear a field.  After any edit the
    collection has the same number of tasks in the same places, each
    with its [completed] flag, and a title, category, priority, due
    date or comment that was not empty is not empty afterwards. *)
Theorem edit_task_never_clears (today : datetime) (ti a b c d e : string) (w : world) :
  Forall2 keeps_fields (tasks w) (tasks (exec (V5.edit_task today ti a b c d e) w)).
Proof.
  rewrite edit_task_run.
  destruct (split_first (title_matches (strip ti)) (tasks w)) as [[[pre t] post] | ] eqn:E;
    [ | apply Forall2_refl_keeps].
  destruct (edited today a b c d e t) as [m | t'] eqn:Ed; [apply Forall2_refl_keeps | ].
  apply split_first_spec in E. destruct E as (El & _ & _).
  destruct (edited_inr _ _ _ _ _ _ _ _ Ed) as (Et & _ & _).
  cbn [tasks]. rewrite El.
  apply Forall2_app; [apply Forall2_refl_keeps | ].
  constructor; [ | apply Forall2_refl_keeps].
  rewrite Et. unfold keeps_fields. cbn [title category priority due_date completed comments].
  split; [reflexivity | ].
  split; [apply por_nonempty | ].
  split; [apply por_nonempty | ].
  split; [apply por_nonempty | ].
  split; [apply por_nonempty | ].
  intros x y Hc. destruct (strip e) as [ | x' y'] eqn:Se; cbn [truthy]; eauto.
Qed.

(** ** [validate_due_date] by calendar day *)

(** X11: whatever the time of day, [validate_due_date] accepts every
    due date that parses and names a day after the current day, and
    rejects with the "past due date" warning every due date that names
    a day before it. *)
Theorem validate_due_date_by_day
    (fmt : format) (today d : datetime) (s : string) (w : world) :
  strptime fmt s = Some d ->
  (date_ltb (date_of today) (date_of d) = true ->
   validate_due_date fmt today s w = (true, w)) /\
  (date_ltb (date_of d) (date_of today) = true ->
   validate_due_date fmt today s w = (false, printed w [MsgPastDueDate])).
Proof.
  intros Hs. rewrite validate_due_date_run, Hs.
  unfold dt_ltb, date_ltb, date_of. rewrite !fields_split. split; intros H.
  - rewrite lex_ltb_prefix_gt; [reflexivity | reflexivity | exact H].
  - rewrite lex_ltb_prefix_lt; [reflexivity | reflexivity | exact H].
Qed.

Lemma validate_due_date_by_day_witness :
  let today := mk_datetime 2026 11 3 23 59 59 999999 in
  let w := mk_world [] NoFile 0 [] in
  validate_due_date V5.fmt today "4-11-2026" w = (true, w) /\
  validate_due_date V2.fmt today "2026-11-02" w = (false, printed w [MsgPastDueDate]).
Proof.
  cbv zeta. split.
  - apply (validate_due_date_by_day V5.fmt (mk_datetime 2026 11 3 23 59 59 999999)
             (mk_datetime 2026 11 4 0 0 0 0) "4-11-2026"); reflexivity.
  - apply (validate_due_date_by_day V2.fmt (mk_datetime 2026 11 3 23 59 59 999999)
             (mk_datetime 2026 11 2 0 0 0 0) "2026-11-02"); reflexivity.
Defined.

(** ** The priority prompt *)

Lemma to_upper_L (c : ascii) : to_upper c = "L"%char <-> to_lower c = "l"%char.
Proof.
  destruct c as [[] [] [] [] [] [] [] []]; vm_compute; split; intros H;
    solve [reflexivity | discriminate H].
Qed.

Lemma to_upper_M (c : ascii) : to_upper c = "M"%char <-> to_lower c = "m"%char.
Proof.
  destruct c as [[] [] [] [] [] [] [] []]; vm_compute; split; intros H;
    solve [reflexivity | discriminate H].
Qed.

Lemma to_upper_H (c : ascii) : to_upper c = "H"%char <-> to_lower c = "h"%char.
Proof.
  destruct c as [[] [] [] [] [] [] [] []]; vm_compute; split; intros H;
    solve [reflexivity | discriminate H].
Qed.

Lemma capitalize_cons_iff (s : string) (u l : ascii) (r : string) :
  (forall c, to_upper c = u <-> to_lower c = l) ->
  capitalize s = String u r <-> lower s = String l r.
Proof.
  intros Hc. destruct s as [ | c s']; simpl; [split; discriminate | ].
  split; intros [= H1 H2]; f_equal; try assumption; now apply Hc.
Qed.

Lemma priority_ok_capitalize (s : string) :
  priority_ok (capitalize s) = true <->
  lower s = "low" \/ lower s = "medium" \/ lower s = "high".
Proof.
  rewrite priority_ok_iff.
  rewrite (capitalize_cons_iff s "L" "l" "ow" to_upper_L).
  rewrite (capitalize_cons_iff s "M" "m" "edium" to_upper_M).
  rewrite (capitalize_cons_iff s "H" "h" "igh" to_upper_H).
  reflexivity.
Qed.

(** X12: the priority prompt of [add_task] is indifferent to case and
    to surrounding white space.  The task is refused with the "invalid
    priority" warning exactly when the answer, stripped and lower-cased,
    is none of low, medium, high. *)
Theorem add_task_priority_any_case
    (today : datetime) (ti ci pi di mi : string) (w : world) :
  refused w (exec (V5.add_task today ti ci pi di mi) w) MsgInvalidPriority <->
  ~ names_priority pi.
Proof.
  unfold names_priority. rewrite <- priority_ok_capitalize, add_task_run.
  destruct (priority_ok (capitalize (strip pi))).
  - split; [ | intros H; now elim H].
    intros (_ & _ & _ & H) _. revert H.
    destruct (strptime V5.fmt (strip di)) as [dt | ];
      [destruct (dt_ltb dt today) | ];
      cbn [printed stdout]; intros H; apply app_inv_head in H; discriminate.
  - split; [intros _; discriminate | intros _; repeat split].
Qed.

(** ** Sorted views *)

Lemma compare_not_gt_trans (a b c : string) :
  String.compare a b <> Gt -> String.compare b c <> Gt -> String.compare a c <> Gt.
Proof.
  revert b c; induction a as [ | x a IH]; intros [ | y b] [ | z c]; simpl;
    try congruence.
  unfold Ascii.compare.
  destruct (N.compare_spec (N_of_ascii x) (N_of_ascii y)) as [Exy | Lxy | Gxy];
    destruct (N.compare_spec (N_of_ascii y) (N_of_ascii z)) as [Eyz | Lyz | Gyz];
    destruct (N.compare_spec (N_of_ascii x) (N_of_ascii z)) as [Exz | Lxz | Gxz];
    try congruence; try lia.
  apply IH.
Qed.

Lemma ltb_false_iff (a b : string) : String.ltb a b = false <-> String.compare b a <> Gt.
Proof.
  unfold String.ltb. rewrite (String.compare_antisym b a).
  destruct (String.compare a b); simpl; split; congruence.
Qed.

Lemma ltb_false_trans (x y z : string) :
  String.ltb y x = false -> String.ltb z y = false -> String.ltb z x = false.
Proof.
  rewrite !ltb_false_iff. apply compare_not_gt_trans.
Qed.

Lemma ltb_asym (x y : string) : String.ltb x y = true -> String.ltb y x = false.
Proof.
  unfold String.ltb. rewrite (String.compare_antisym y x).
  destruct (String.compare x y); simpl; congruence.
Qed.

Section InOrder.
Variable key : task -> string.
Variable reverse : bool.

Lemma goes_first_asym (y x : task) :
  goes_first key reverse y x = true -> goes_first key reverse x y = false.
Proof. unfold goes_first. destruct reverse; apply ltb_asym. Qed.

Lemma goes_first_trans (x y z : task) :
  goes_first key reverse y x = false -> goes_first key reverse z y = false ->
  goes_first key reverse z x = false.
Proof.
  unfold goes_first. destruct reverse; intros H1 H2.
  - exact (ltb_false_trans _ _ _ H2 H1).
  - exact (ltb_false_trans _ _ _ H1 H2).
Qed.

Lemma insert_stable_in_order (x : task) (l : list task) :
  in_order key reverse l -> in_order key reverse (insert_stable key reverse x l).
Proof.
  unfold in_order. intros Hs. induction Hs as [ | y l Hs IH Hy]; simpl.
  - repeat constructor.
  - destruct (goes_first key reverse y x) eqn:G.
    + constructor; [exact IH | ].
      eapply Permutation_Forall; [apply Permutation_sym, insert_stable_perm | ].
      constructor; [now apply goes_first_asym | exact Hy].
    + constructor; [now constructor | ].
      constructor; [exact G | ].
      eapply Forall_impl; [ | exact Hy]. simpl. intros z Hz.
      now apply goes_first_trans with (y := y).
Qed.

Lemma sorted_in_order (l : list task) : in_order key reverse (sorted key reverse l).
Proof.
  induction l as [ | x l IH]; simpl; [constructor | ].
  now apply insert_stable_in_order.
Qed.
End InOrder.

(** X13: the due-date view of [list_tasks] (versions 1 to 3) lists every
    task of the collection exactly once, in non-decreasing order of the
    [due_date] texts compared as strings, tasks of equal due date in
    their order in the collection. *)
Theorem list_tasks_by_due_date (ts : list task) :
  let out := V2.select ts (Some "due_date") in
  Permutation out ts /\
  StronglySorted (fun a b => String.ltb (due_date b) (due_date a) = false) out /\
  (forall d, filter (fun t => String.eqb (due_date t) d) out =
             filter (fun t => String.eqb (due_date t) d) ts).
Proof.
  cbv zeta. change (V2.select ts (Some "due_date")) with (sorted due_date false ts).
  split; [apply sorted_perm | split].
  - exact (sorted_in_order due_date false ts).
  - intros d. apply sorted_stable.
Qed.

Lemma category_stable (k : string) (ts : list task) :
  filter (fun t => String.eqb (category_key t) k) (sorted category_key false ts) =
  filter (fun t => String.eqb (category_key t) k) ts.
Proof. apply sorted_stable. Qed.

(** X14: on a collection that is not empty [sort_tasks_by_category]
    prints, between its header and a closing blank line, one line per
    task: every task exactly once, in non-decreasing order of the
    lower-cased category, tasks whose categories differ by case only in
    their order in the collection. *)
Theorem sort_tasks_by_category_lists (ts : list task) :
  ts <> [] ->
  exists out,
    sort_tasks_by_category ts = [LineCategoryHeader] ++ map line_of_task out ++ [LineBlank] /\
    Permutation out ts /\
    StronglySorted
      (fun a b => String.ltb (lower (category b)) (lower (category a)) = false) out /\
    (forall k, filter (fun t => String.eqb (lower (category t)) k) out =
               filter (fun t => String.eqb (lower (category t)) k) ts).
Proof.
  intros H. exists (sorted category_key false ts).
  split; [destruct ts; [now elim H | reflexivity] | ].
  split; [apply sorted_perm | split].
  - exact (sorted_in_order category_key false ts).
  - intros k. apply category_stable.
Qed.

Lemma sort_tasks_by_category_lists_witness :
  let a := mk_task "Pay rent" "home" "Low" "01-12-2026" false None in
  let b := mk_task "Report" "Work" "High" "04-11-2026" false None in
  let c := mk_task "Buy milk" "Home" "High" "05-11-2026" true None in
  exists out,
    sort_tasks_by_category [b; a; c] =
      [LineCategoryHeader] ++ map line_of_task out ++ [LineBlank] /\
    Permutation out [b; a; c] /\
    StronglySorted
      (fun a b => String.ltb (lower (category b)) (lower (category a)) = false) out /\
    (forall k, filter (fun t => String.eqb (lower (category t)) k) out =
               filter (fun t => String.eqb (lower (category t)) k) [b; a; c]).
Proof.
  cbv zeta. apply sort_tasks_by_category_lists. discriminate.
Defined.

(** ** The two date formats *)

Lemma digit_not_sep (c : ascii) :
  digit c <> None -> Ascii.eqb "-" c = false /\ Ascii.eqb " " c = false.
Proof.
  destruct c as [[] [] [] [] [] [] [] []]; vm_compute; intros H; split;
    solve [reflexivity | now elim H].
Qed.

Lemma flat_map_nil {A B} (f : A -> list B) (l : list A) :
  (forall x, In x l -> f x = []) -> flat_map f l = [].
Proof.
  induction l as [ | a l IH]; intros H; [reflexivity | ].
  simpl. rewrite (H a (or_introl eq_refl)), IH; [reflexivity | ].
  intros x Hx. apply H. now right.
Qed.

Lemma dir_Y_shape (s : string) :
  dir_Y s <> [] ->
  exists c1 c2 c3 r, s = String c1 (String c2 (String c3 r)) /\
                     digit c2 <> None /\ digit c3 <> None.
Proof.
  destruct s as [ | c1 [ | c2 [ | c3 r]]]; unfold dir_Y, bind, one; simpl.
  - intros H; now elim H.
  - destruct (digit c1); simpl; intros H; now elim H.
  - destruct (digit c1); simpl; [ | intros H; now elim H].
    destruct (digit c2); simpl; intros H; now elim H.
  - destruct (digit c1); simpl; [ | intros H; now elim H].
    destruct (digit c2) eqn:D2; simpl; [ | intros H; now elim H].
    destruct (digit c3) eqn:D3; simpl; [ | intros H; now elim H].
    intros _. exists c1, c2, c3, r. rewrite D2, D3. repeat split; discriminate.
Qed.

Lemma one_rest (f : ascii -> option Z) (c : ascii) (r : string) (x : Z * string) :
  In x (one f (String c r)) -> snd x = r.
Proof.
  unfold one. destruct (f c); simpl; [ | tauto]. intros [<- | []]. reflexivity.
Qed.

Lemma two_rest (f g : ascii -> option Z) (c1 c2 : ascii) (r : string) (x : Z * string) :
  In x (two f g (String c1 (String c2 r))) -> snd x = r.
Proof.
  unfold two, bind. intros H.
  apply in_flat_map in H. destruct H as ([a r1] & H1 & H).
  apply one_rest in H1. cbn [snd] in H1. subst r1.
  apply in_flat_map in H. destruct H as ([b r2] & H2 & H).
  apply one_rest in H2. cbn [snd] in H2. subst r2.
  destruct H as [<- | []]. reflexivity.
Qed.

Lemma dir_d_rest (c1 c2 c3 : ascii) (r : string) (x : Z * string) :
  In x (dir_d (String c1 (String c2 (String c3 r)))) ->
  snd x = String c2 (String c3 r) \/ snd x = String c3 r.
Proof.
  unfold dir_d, alt. intros H.
  repeat (apply in_app_or in H; destruct H as [H | H]).
  - right. now apply two_rest in H.
  - right. now apply two_rest in H.
  - right. now apply two_rest in H.
  - left. now apply one_rest in H.
  - right. unfold bind at 1 in H.
    apply in_flat_map in H. destruct H as ([u r1] & H1 & H).
    unfold lit in H1. destruct (Ascii.eqb " " c1); [ | destruct H1].
    destruct H1 as [[= <- <-] | []]. now apply one_rest in H.
Qed.

Lemma format_re_dmy_nil (c1 c2 c3 : ascii) (r : string) :
  digit c2 <> None -> digit c3 <> None ->
  format_re DMY (String c1 (String c2 (String c3 r))) = [].
Proof.
  intros D2 D3. unfold format_re, bind at 1.
  apply flat_map_nil. intros [v rest] Hin.
  apply dir_d_rest in Hin. cbn [snd] in Hin.
  unfold bind at 1, lit.
  destruct Hin as [-> | ->].
  - destruct (digit_not_sep c2 D2) as [-> _]. reflexivity.
  - destruct (digit_not_sep c3 D3) as [-> _]. reflexivity.
Qed.

Lemma formats_disjoint (s : string) (d : datetime) :
  strptime YMD s = Some d -> strptime DMY s = None.
Proof.
  intros H.
  assert (Y : dir_Y s <> []).
  { intros E. unfold strptime, format_re, bind in H. rewrite E in H. discriminate. }
  destruct (dir_Y_shape s Y) as (c1 & c2 & c3 & r & -> & D2 & D3).
  unfold strptime. now rewrite format_re_dmy_nil.
Qed.

(** X17: the date formats of the versions exclude each other.  A due
    date that [validate_due_date] accepts in versions 2 and 3 is
    refused in version 5 with the "invalid date format" warning, and a
    due date that version 5 accepts is refused in versions 2 and 3 with
    that warning, whatever the clock. *)
Theorem date_formats_exclude_each_other (t2 t5 : datetime) (s : string) (w2 w5 : world) :
  (fst (validate_due_date V2.fmt t2 s w2) = true ->
   validate_due_date V5.fmt t5 s w5 = (false, printed w5 [MsgInvalidDateFormat])) /\
  (fst (validate_due_date V5.fmt t5 s w5) = true ->
   validate_due_date V2.fmt t2 s w2 = (false, printed w2 [MsgInvalidDateFormat])).
Proof.
  split; intros H; apply validate_due_date_true_iff in H; destruct H as (d & Hs & _).
  - rewrite validate_due_date_run.
    unfold V2.fmt in Hs. unfold V5.fmt. now rewrite (formats_disjoint s d Hs).
  - rewrite validate_due_date_run. unfold V5.fmt in Hs. unfold V2.fmt.
    destruct (strptime YMD s) as [d' | ] eqn:E; [ | reflexivity].
    rewrite (formats_disjoint s d' E) in Hs. discriminate.
Qed.

Lemma date_formats_exclude_each_other_witness :
  let noon := mk_datetime 2026 11 3 12 0 0 0 in
  let w := mk_world [] NoFile 0 [] in
  validate_due_date V5.fmt noon "2026-12-01" w = (false, printed w [MsgInvalidDateFormat]) /\
  validate_due_date V2.fmt noon "01-12-2026" w = (false, printed w [MsgInvalidDateFormat]).
Proof.
  cbv zeta. split.
  - apply (date_formats_exclude_each_other (mk_datetime 2026 11 3 12 0 0 0)
             (mk_datetime 2026 11 3 12 0 0 0) "2026-12-01"
             (mk_world [] NoFile 0 []) (mk_world [] NoFile 0 [])).
    reflexivity.
  - apply (date_formats_exclude_each_other (mk_datetime 2026 11 3 12 0 0 0)
             (mk_datetime 2026 11 3 12 0 0 0) "01-12-2026"
             (mk_world [] NoFile 0 []) (mk_world [] NoFile 0 [])).
    reflexivity.
Defined.

(** ** Operations composed *)

(** X15: after [add_task] has reported success for a title no task had,
    [view_task_comments] for that title, in any casing, prints the
    title as stored and the comment as submitted (stripped), or that
    there are no comments when the comment was left blank. *)
Theorem view_task_comments_after_add
    (today : datetime) (ti ci pi di mi key_in : string) (w : world) :
  stdout (exec (V5.add_task today ti ci pi di mi) w) = stdout w ++ [MsgAdded (strip ti)] ->
  absent (strip ti) (tasks w) ->
  lower (strip key_in) = lower (strip ti) ->
  view_task_comments key_in (tasks (exec (V5.add_task today ti ci pi di mi) w)) =
    if truthy (strip mi)
    then [LineCommentsFor (strip ti); LineText (strip mi)]
    else [LineNoCommentsFor (strip ti)].
Proof.
  intros Hs A K. rewrite (add_task_reports_success _ _ _ _ _ _ _ Hs).
  unfold view_task_comments. rewrite split_first_at.
  - cbn [new_task comments title]. destruct (strip mi); reflexivity.
  - apply absent_same_key with (k1 := strip ti); [now symmetry | exact A].
  - cbn [new_task title]. now symmetry.
Qed.

Lemma view_task_comments_after_add_witness :
  let w := mk_world [] NoFile 0 [] in
  view_task_comments "BUY MILK "
    (tasks (exec (V5.add_task (mk_datetime 2026 11 3 12 0 0 0)
                    "Buy milk" "home" "high" "04-11-2026" " 2 litres ") w)) =
  [LineCommentsFor "Buy milk"; LineText "2 litres"].
Proof.
  cbv zeta.
  apply (view_task_comments_after_add (mk_datetime 2026 11 3 12 0 0 0)
           "Buy milk" "home" "high" "04-11-2026" " 2 litres " "BUY MILK "
           (mk_world [] NoFile 0 [])).
  - reflexivity.
  - constructor.
  - reflexivity.
Defined.

Lemma filter_pending_app (a b : list task) :
  filter pending (a ++ b) = filter pending a ++ filter pending b.
Proof. apply filter_app. Qed.

(** X16: marking a task complete and then removing the completed tasks
    leaves the pending tasks other than the one marked, in their order:
    the marked task goes, together with every task completed before. *)
Theorem mark_then_remove_completed
    (ti : string) (w : world) (pre post : list task) (t : task) :
  tasks w = pre ++ t :: post ->
  absent (strip ti) pre ->
  lower (title t) = lower (strip ti) ->
  let w' := exec remove_completed_tasks (exec (mark_task_complete ti) w) in
  tasks w' = filter (fun x => negb (completed x)) (pre ++ post) /\
  disk w' = File (JsonTasks (tasks w')) /\
  writes w' = S (S (writes w)).
Proof.
  intros E A Ht. cbv zeta.
  rewrite remove_completed_tasks_run, mark_task_complete_run, E.
  rewrite (split_first_at _ _ _ _ A Ht). cbv zeta. cbn [tasks disk writes stdout].
  assert (Ex : existsb completed (pre ++ set_completed t true :: post) = true).
  { rewrite existsb_app. simpl. now rewrite orb_true_r. }
  rewrite Ex. cbn [tasks disk writes].
  fold pending. rewrite !filter_pending_app. simpl. repeat split.
Qed.

Lemma mark_then_remove_completed_witness :
  let a := mk_task "Pay rent" "home" "Low" "01-12-2026" true None in
  let b := mk_task "Buy milk" "home" "High" "04-11-2026" false None in
  let c := mk_task "Report" "work" "High" "05-11-2026" false None in
  let w := mk_world [a; b; c] (File (JsonTasks [a; b; c])) 3 [] in
  let w' := exec remove_completed_tasks (exec (mark_task_complete "buy milk") w) in
  tasks w' = [c] /\ disk w' = File (JsonTasks (tasks w')) /\ writes w' = 5%nat.
Proof.
  cbv zeta.
  refine (mark_then_remove_completed "buy milk"
            (mk_world [mk_task "Pay rent" "home" "Low" "01-12-2026" true None;
                       mk_task "Buy milk" "home" "High" "04-11-2026" false None;
                       mk_task "Report" "work" "High" "05-11-2026" false None]
               (File (JsonTasks
                        [mk_task "Pay rent" "home" "Low" "01-12-2026" true None;
                         mk_task "Buy milk" "home" "High" "04-11-2026" false None;
                         mk_task "Report" "work" "High" "05-11-2026" false None]))
               3 [])
            [mk_task "Pay rent" "home" "Low" "01-12-2026" true None]
            [mk_task "Report" "work" "High" "05-11-2026" false None]
            (mk_task "Buy milk" "home" "High" "04-11-2026" false None)
            eq_refl _ eq_refl).
  repeat constructor. discriminate.
Defined.

Lemma lookup_skip_absent (key : string) (pre l : list task) :
  absent key pre -> lookup key (pre ++ l) = lookup key l.
Proof.
  unfold lookup. induction 1 as [ | x pre Hx F IH]; [reflexivity | ].
  simpl. destruct (title_matches key x) eqn:M.
  - apply title_matches_iff in M. contradiction.
  - destruct (split_first (title_matches key) (pre ++ l)) as [[[p y] q] | ];
      destruct (split_first (title_matches key) l) as [[[p' y'] q'] | ];
      simpl in *; congruence.
Qed.

Lemma remove_task_tasks (ti : string) (w : world) (pre post : list task) (t : task) :
  tasks w = pre ++ t :: post ->
  absent (strip ti) pre ->
  lower (title t) = lower (strip ti) ->
  tasks (exec (remove_task ti) w) = pre ++ post.
Proof.
  intros E A Ht. rewrite remove_task_run, E, (split_first_at _ _ _ _ A Ht).
  cbv zeta. cbn [tasks]. apply list_remove_at.
  eapply Forall_impl; [ | exact A]. simpl. intros x Hx ->. contradiction.
Qed.

(** X18: removing a title uncovers the next task of that title.  After
    [remove_task] has removed the first task answering to the title, the
    title finds the first such task among those that followed it, or
    nothing when there is none. *)
Theorem remove_task_uncovers_next
    (ti : string) (w : world) (pre post : list task) (t : task) :
  tasks w = pre ++ t :: post ->
  absent (strip ti) pre ->
  lower (title t) = lower (strip ti) ->
  lookup (strip ti) (tasks (exec (remove_task ti) w)) = lookup (strip ti) post.
Proof.
  intros E A Ht. rewrite (remove_task_tasks ti w pre post t E A Ht).
  now apply lookup_skip_absent.
Qed.

Lemma remove_task_uncovers_next_witness :
  let b := mk_task "Buy milk" "home" "High" "04-11-2026" false None in
  let c := mk_task "buy MILK" "shop" "Low" "05-11-2026" true None in
  let w := mk_world [b; c] (File (JsonTasks [b; c])) 2 [] in
  lookup "buy milk" (tasks (exec (remove_task "buy milk") w)) = Some c.
Proof.
  cbv zeta.
  apply (remove_task_uncovers_next "buy milk"
           (mk_world [mk_task "Buy milk" "home" "High" "04-11-2026" false None;
                      mk_task "buy MILK" "shop" "Low" "05-11-2026" true None]
              (File (JsonTasks [mk_task "Buy milk" "home" "High" "04-11-2026" false None;
                                mk_task "buy MILK" "shop" "Low" "05-11-2026" true None]))
              2 [])
           []
           [mk_task "buy MILK" "shop" "Low" "05-11-2026" true None]
           (mk_task "Buy milk" "home" "High" "04-11-2026" false None)).
  - reflexivity.
  - constructor.
  - reflexivity.
Defined.

(** ** Version 1 beside versions 2 and 3 *)

Lemma edit_task_v1_run (ti a b c d : string) (w : world) :
  exec (V1.edit_task ti a b c d) w =
    match split_first (title_matches (strip ti)) (tasks w) with
    | Some (pre, t, post) =>
        let t' := mk_task (por (strip a) (title t)) (por (strip b) (category t))
                          (por (capitalize (strip c)) (priority t))
                          (por (strip d) (due_date t)) (completed t) (comments t) in
        let ts := pre ++ t' :: post in
        mk_world ts (File (JsonTasks ts)) (S (writes w))
                 (stdout w ++ [MsgLeaveBlank; MsgUpdated (title t')])
    | None => printed w [MsgNotFound]
    end.
Proof.
  unfold exec, V1.edit_task, mbind, get_tasks. cbn [fst snd].
  destruct (split_first (title_matches (strip ti)) (tasks w)) as [[[pre t] post] | ];
    [ | reflexivity].
  simpl. now rewrite <- app_assoc.
Qed.

(** X19: in version 1 an edit with every answer left blank succeeds
    whatever the task holds: the collection is rewritten unchanged and
    the update is reported.  (Versions 2, 3 and 5 validate the kept
    priority and due date first.) *)
Theorem edit_task_v1_blank_succeeds (ti a b c d : string) (w : world) (t : task) :
  lookup (strip ti) (tasks w) = Some t ->
  blank a -> blank b -> blank c -> blank d ->
  committed w (exec (V1.edit_task ti a b c d) w) (tasks w)
            [MsgLeaveBlank; MsgUpdated (title t)].
Proof.
  unfold lookup, blank. intros L Ha Hb Hc Hd. rewrite edit_task_v1_run.
  destruct (split_first (title_matches (strip ti)) (tasks w)) as [[[pre x] post] | ] eqn:E;
    [ | discriminate].
  injection L as ->. apply split_first_spec in E. destruct E as (El & _ & _).
  rewrite Ha, Hb, Hc, Hd.
  cbn [capitalize por truthy]. rewrite task_eta. cbv zeta.
  rewrite <- El. repeat split.
Qed.

Lemma edit_task_v1_blank_succeeds_witness :
  let t := mk_task "Buy milk" "home" "whenever" "yesterday" false None in
  let w := mk_world [t] (File (JsonTasks [t])) 1 [] in
  committed w (exec (V1.edit_task "buy milk" "" " " "" "") w) [t]
            [MsgLeaveBlank; MsgUpdated "Buy milk"].
Proof.
  cbv zeta.
  apply (edit_task_v1_blank_succeeds "buy milk" "" " " "" ""
           (mk_world [mk_task "Buy milk" "home" "whenever" "yesterday" false None]
              (File (JsonTasks [mk_task "Buy milk" "home" "whenever" "yesterday" false None]))
              1 [])
           (mk_task "Buy milk" "home" "whenever" "yesterday" false None));
    reflexivity.
Defined.

Lemma add_task_v1_run (ti ci pi di : string) (w : world) :
  exec (V1.add_task ti ci pi di) w =
    let ts := tasks w ++ [new_task ti ci pi di ""] in
    mk_world ts (File (JsonTasks ts)) (S (writes w)) (stdout w ++ [MsgAdded (strip ti)]).
Proof. reflexivity. Qed.

(** X20: the [add_task] of versions 2 and 3 is version 1's behind the
    two validators.  When the priority and the due date pass
    [validate_priority] and [validate_due_date], it does exactly what
    version 1 does with the same answers; otherwise it leaves the
    collection and the file alone, where version 1 appends the task
    all the same. *)
Theorem add_task_v2_is_v1_validated (today : datetime) (ti ci pi di : string) (w : world) :
  let w1 := exec (V1.add_task ti ci pi di) w in
  let w2 := exec (V2.add_task today ti ci pi di) w in
  tasks w1 = tasks w ++ [new_task ti ci pi di ""] /\
  (if fst (validate_priority (capitalize (strip pi)) w)
      && fst (validate_due_date V2.fmt today (strip di) w)
   then w2 = w1
   else tasks w2 = tasks w /\ disk w2 = disk w /\ writes w2 = writes w).
Proof.
  cbv zeta. rewrite add_task_v1_run, add_task_v2_run.
  rewrite validate_priority_run, validate_due_date_run.
  split; [reflexivity | ].
  destruct (priority_ok (capitalize (strip pi))); cbn [fst andb];
    [ | repeat split].
  destruct (strptime V2.fmt (strip di)) as [dt | ]; [ | repeat split].
  destruct (dt_ltb dt today); cbn [fst]; repeat split.
Qed.

(** ** Listing *)

Lemma list_tasks_v5_run (filter_by : option string) (w : world) :
  exec (V5.list_tasks filter_by) w =
    match tasks w with
    | [] => printed w [MsgNoTasks]
    | _ => printed w ([MsgHeader] ++ map task_line (tasks w) ++ [MsgBlank])
    end.
Proof.
  unfold exec, V5.list_tasks, mbind, get_tasks. cbv beta iota.
  destruct (tasks w) as [ | t l] eqn:E; [reflexivity | ].
  cbv beta iota. remember (t :: l) as ts eqn:Ets.
  unfold print at 1; simpl. rewrite print_tasks_run.
  unfold print, printed; simpl. rewrite E, <- !app_assoc. reflexivity.
Qed.

Lemma select_incl (ts : list task) (filter_by : option string) :
  incl (V2.select ts filter_by) ts.
Proof.
  unfold V2.select. destruct filter_by as [f | ]; [ | apply incl_refl].
  destruct (String.eqb f "incomplete"); [apply incl_filter | ].
  destruct (String.eqb f "complete"); [apply incl_filter | ].
  destruct (String.eqb f "priority").
  { intros x Hx. eapply Permutation_in; [apply sorted_perm | exact Hx]. }
  destruct (String.eqb f "due_date"); [ | apply incl_refl].
  intros x Hx. eapply Permutation_in; [apply sorted_perm | exact Hx].
Qed.

(** X21: listing only prints.  Whatever [filter_by] is, [list_tasks]
    (every version) leaves the collection, the file and the number of
    writes as they were.  On an empty collection it prints "No tasks
    found!" and nothing else; otherwise it prints a header, task lines
    and a blank line, and every task shown is a task of the
    collection. *)
Theorem list_tasks_only_prints (filter_by : option string) (w : world) :
  let w2 := exec (V2.list_tasks filter_by) w in
  let w5 := exec (V5.list_tasks filter_by) w in
  (tasks w2 = tasks w /\ disk w2 = disk w /\ writes w2 = writes w) /\
  (tasks w5 = tasks w /\ disk w5 = disk w /\ writes w5 = writes w) /\
  match tasks w with
  | [] => stdout w2 = stdout w ++ [MsgNoTasks] /\ stdout w5 = stdout w ++ [MsgNoTasks]
  | _ :: _ =>
      exists shown,
        stdout w2 = stdout w ++ [MsgHeader] ++ map task_line shown ++ [MsgBlank] /\
        incl shown (tasks w) /\
        stdout w5 = stdout w ++ [MsgHeader] ++ map task_line (tasks w) ++ [MsgBlank]
  end.
Proof.
  cbv zeta. rewrite list_tasks_v2_run, list_tasks_v5_run.
  pose proof (select_incl (tasks w) filter_by) as I.
  destruct (tasks w) as [ | t l] eqn:E.
  - repeat split; cbn [printed tasks]; exact E.
  - split; [repeat split; cbn [printed tasks]; exact E | ].
    split; [repeat split; cbn [printed tasks]; exact E | ].
    exists (V2.select (t :: l) filter_by). repeat split. exact I.
Qed.
